(** * pdfcraft: the LibreOffice conversion engine and the spreadsheet gateway

    A shallow embedding of

    - [src/lib/libreoffice/converter.ts]: the [LibreOfficeConverter] class
      (engine lifecycle: [initialize], [checkEnvironment], [isReady],
      [convert], [destroy]) and the module-level singleton
      [getLibreOfficeConverter];
    - [src/lib/pdf/processors/excel-to-pdf.ts]: [ExcelToPDFProcessor.process].

    Conventions of the embedding.

    - JavaScript strings are [string]s.  [split('.')] and the regular
      expression of [process] look at ASCII characters only.  [toLowerCase]
      is embedded on ASCII letters, which is what it does to a string of
      ASCII characters ([Js.is_ascii]); what it does to other letters is not
      modelled, and a statement that depends on it is made for ASCII names.
    - JavaScript numbers used as progress percentages are exact rationals
      ([Q]); the factor [0.8] is [4 # 5].
    - [async] methods are run to completion by a state-and-exception monad
      [M] that also collects the observable events of the run (HEAD probes,
      engine calls, progress callbacks).  Module [Concurrent] refines
      [initialize] into its atomic segments between two [await]s and
      interleaves several callers.
    - Everything outside the two files (the browser, the engine worker, the
      caller) is a [World]: a record of answers to the questions the code
      asks.  A [World] answers every question: an awaited call of the
      platform that never settles has no run here, so the theorems say how a
      call ends when it ends, never that it ends.
    - A run is the run of one caller.  A caller that finds an
      initialization in flight waits for another caller, which a run does
      not have: its result is [Pending].  What such a caller sees in the
      code (the flag cleared by the other caller, whatever that one reached)
      is the subject of [Concurrent].
    - [console.*] calls and [performance.now()] timings have no effect on the
      results and are left out. *)

From Stdlib Require Import String Ascii List ZArith QArith Qminmax Qround.
From Stdlib Require Import DecimalString Bool Lia.
From stdpp Require Import base list strings.
Import ListNotations.
Open Scope string_scope.
Open Scope list_scope.

(** ** JavaScript strings and thrown values *)

Module Js.

(** [String.prototype.toLowerCase] on a string of ASCII characters: the
    letters [A]-[Z] become [a]-[z].  (On other letters the JavaScript
    function follows the Unicode case mappings, which are not embedded.) *)
Definition lower_ascii (c : ascii) : ascii :=
  let n := nat_of_ascii c in
  if (65 <=? n)%nat && (n <=? 90)%nat then ascii_of_nat (n + 32) else c.

Fixpoint toLowerCase (s : string) : string :=
  match s with
  | EmptyString => EmptyString
  | String c rest => String (lower_ascii c) (toLowerCase rest)
  end.

(** The strings on which [toLowerCase] above is the JavaScript function. *)
Fixpoint is_ascii (s : string) : bool :=
  match s with
  | EmptyString => true
  | String c rest => (nat_of_ascii c <? 128)%nat && is_ascii rest
  end.

(** [s.split(sep)] for a one-character separator: never the empty array. *)
Fixpoint split (sep : ascii) (s : string) : list string :=
  match s with
  | EmptyString => [EmptyString]
  | String c rest =>
      if Ascii.eqb c sep then EmptyString :: split sep rest
      else match split sep rest with
           | seg :: segs => String c seg :: segs
           | [] => [String c EmptyString]
           end
  end.

(** Does the character occur in the string? *)
Fixpoint contains (c : ascii) (s : string) : bool :=
  match s with
  | EmptyString => false
  | String d rest => Ascii.eqb d c || contains c rest
  end.

(** [a || b] on strings: the empty string is falsy. *)
Definition or_else (a b : string) : string :=
  match a with EmptyString => b | _ => a end.

(** [file.name.split('.').pop()?.toLowerCase() || ''] *)
Definition extension (name : string) : string :=
  or_else (match last (split "." name) with
           | Some seg => toLowerCase seg
           | None => EmptyString
           end) EmptyString.

(** [`${n}`] for a non-negative integer and for an integer. *)
Definition string_of_nat (n : nat) : string :=
  NilEmpty.string_of_uint (Nat.to_uint n).

Definition string_of_Z (z : Z) : string :=
  NilEmpty.string_of_int (Z.to_int z).

(** [Math.round]: the nearest integer, halves upwards. *)
Definition round (x : Q) : Z := Qfloor (x + (1 # 2)).

Definition string_of_bool (b : bool) : string :=
  if b then "true" else "false".

Definition startsWith (s prefix : string) : bool := String.prefix prefix s.

Definition includes (l : list string) (x : string) : bool :=
  existsb (String.eqb x) l.

(** What a [throw] carries: an [Error] object with its [name] and
    [message], or any other value (kept as its string rendering). *)
Inductive Thrown : Type :=
| JsError (name message : string)
| JsOther (rendering : string).

Definition Error (message : string) : Thrown := JsError "Error" message.

(** [`${e}`]: [Error.prototype.toString] for an error object. *)
Definition render (e : Thrown) : string :=
  match e with
  | JsError name message =>
      match name, message with
      | EmptyString, _ => message
      | _, EmptyString => name
      | _, _ => name +:+ ": " +:+ message
      end
  | JsOther rendering => rendering
  end.

(** [error instanceof Error ? error.message : fallback] *)
Definition message_or (e : Thrown) (fallback : string) : string :=
  match e with
  | JsError _ message => message
  | JsOther _ => fallback
  end.

End Js.

(** ** The world outside the two modules *)

Module Platform.

Import Js.

Definition bytes : Type := list Byte.byte.

(** A [File]: name, declared MIME type, content. *)
Record File : Type := mkFile {
  file_name : string;
  file_type : string;
  file_bytes : bytes
}.

(** A [Blob]: its content and its [type]. *)
Record Blob : Type := mkBlob {
  blob_data : bytes;
  blob_type : string
}.

(** [new Blob([data], { type })].  The constructor does not keep the given
    type as it is: a type with a character outside U+0020-U+007E becomes
    the empty string, any other is converted to ASCII lower case. *)
Definition printable (c : ascii) : bool :=
  (32 <=? nat_of_ascii c)%nat && (nat_of_ascii c <=? 126)%nat.

Definition Blob_type (type : string) : string :=
  if forallb printable (list_ascii_of_string type) then toLowerCase type
  else EmptyString.

Definition new_Blob (data : bytes) (type : string) : Blob :=
  {| blob_data := data; blob_type := Blob_type type |}.

(** The answer of [fetch(url, { method: 'HEAD' })]. *)
Record Response : Type := mkResponse {
  res_status : nat;
  res_statusText : string;
  res_content_length : option string;
  res_content_type : option string
}.

(** [res.ok]: the status is in the range 200-299. *)
Definition res_ok (r : Response) : bool :=
  (200 <=? res_status r)%nat && (res_status r <=? 299)%nat.

Inductive FetchOutcome : Type :=
| Responds (r : Response)
| FetchThrows (e : Thrown).

(** The options [WorkerBrowserConverter] is constructed with (the three
    callback hooks are handled by [LibreOffice.initialize]). *)
Record WorkerBrowserConverter : Type := mkEngine {
  sofficeJs : string;
  sofficeWasm : string;
  sofficeData : string;
  sofficeWorkerJs : string;
  browserWorkerJs : string;
  verbose : bool
}.

(** The argument of the engine's [onProgress] hook. *)
Record EngineInfo : Type := mkInfo {
  info_phase : string;
  info_percent : Q;
  info_message : string
}.

(** The value the engine's [convert] resolves to. *)
Record EngineResult : Type := mkResult {
  result_data : bytes;
  result_mimeType : string
}.

Inductive ConvertOutcome : Type :=
| Converts (r : EngineResult)
| ConvertThrows (e : Thrown).

(** Moments of a [process] call at which caller code runs and may set the
    cancellation flag: inside the first progress callback, while
    [initialize] is awaited, while the conversion is awaited. *)
Inductive CancelPoint : Type :=
| BeforeInit
| DuringInit
| DuringConvert.

Record World : Type := mkWorld {
  (** [window.crossOriginIsolated] *)
  crossOriginIsolated : bool;
  (** [typeof SharedArrayBuffer !== 'undefined'] *)
  hasSharedArrayBuffer : bool;
  (** [fetch(url, { method: 'HEAD' })] *)
  fetchHead : string -> FetchOutcome;
  (** [engine.initialize()]: the progress hooks fired while it is awaited,
      then [None] when it resolves or the value it rejects with *)
  engineInitialize : WorkerBrowserConverter -> list EngineInfo * option Thrown;
  (** [engine.convert(data, { outputFormat, inputFormat }, name)] *)
  engineConvert :
    WorkerBrowserConverter -> bytes -> string -> string -> string -> ConvertOutcome;
  (** [engine.destroy()]: [None] when it resolves *)
  engineDestroy : WorkerBrowserConverter -> option Thrown;
  (** when, if ever, the caller of [process] sets the cancellation flag *)
  callerCancels : option CancelPoint
}.

(** What a run does that its environment can see.  An [EvProgress] is a
    call of the progress callback of the caller of [process]. *)
Inductive Event : Type :=
| EvFetchHead (url : string)
| EvEngineNew (engine : WorkerBrowserConverter)
| EvEngineInitialize (engine : WorkerBrowserConverter)
| EvEngineConvert (engine : WorkerBrowserConverter) (data : bytes)
    (outputFormat inputFormat name : string)
| EvEngineDestroy (engine : WorkerBrowserConverter)
| EvProgress (percent : Q) (message : string).

End Platform.

(** ** Run-to-completion semantics of [async] code *)

Module Run.

Import Js Platform.

(** How a call ends: it returns, it throws, or its promise never settles. *)
Inductive Res (A : Type) : Type :=
| Ok (a : A)
| Throw (e : Thrown)
| Pending.

Arguments Ok {A} a.
Arguments Throw {A} e.
Arguments Pending {A}.

Definition M (S A : Type) : Type := S -> Res A * S * list Event.

Definition ret {S A} (a : A) : M S A := fun s => (Ok a, s, []).

Definition bind {S A B} (m : M S A) (f : A -> M S B) : M S B :=
  fun s =>
    match m s with
    | (Ok a, s1, t1) =>
        match f a s1 with
        | (r, s2, t2) => (r, s2, t1 ++ t2)
        end
    | (Throw e, s1, t1) => (Throw e, s1, t1)
    | (Pending, s1, t1) => (Pending, s1, t1)
    end.

Definition throw {S A} (e : Thrown) : M S A := fun s => (Throw e, s, []).

Definition pending {S A} : M S A := fun s => (Pending, s, []).

Definition get {S} : M S S := fun s => (Ok s, s, []).

Definition modify {S} (f : S -> S) : M S unit := fun s => (Ok tt, f s, []).

Definition emit {S} (evs : list Event) : M S unit := fun s => (Ok tt, s, evs).

(** [try { m } catch (e) { handler e }] *)
Definition try_catch {S A} (m : M S A) (handler : Thrown -> M S A) : M S A :=
  fun s =>
    match m s with
    | (Throw e, s1, t1) =>
        match handler e s1 with
        | (r, s2, t2) => (r, s2, t1 ++ t2)
        end
    | other => other
    end.

(** [try { m } finally { fin }], for a [fin] that neither throws nor
    returns: it runs when [m] returns and when [m] throws. *)
Definition try_finally {S A} (m : M S A) (fin : S -> S) : M S A :=
  fun s =>
    match m s with
    | (Ok a, s1, t1) => (Ok a, fin s1, t1)
    | (Throw e, s1, t1) => (Throw e, fin s1, t1)
    | (Pending, s1, t1) => (Pending, s1, t1)
    end.

End Run.

Declare Scope run_scope.
Delimit Scope run_scope with run.
Notation "'let*' x ':=' m 'in' k" := (Run.bind m (fun x => k))
  (at level 10, x name, m at level 100, k at level 200) : run_scope.
Notation "m ;; k" := (Run.bind m (fun _ => k))
  (at level 100, k at level 200, right associativity) : run_scope.

(** ** [src/lib/libreoffice/converter.ts] *)

Module LibreOffice.

Import Js Platform Run.
Open Scope run_scope.

Definition LIBREOFFICE_PATH : string := "/libreoffice-wasm/".

Record LoadProgress : Type := mkProgress {
  phase : string;
  percent : Q;
  message : string
}.

(** A progress callback, by the events it makes visible. *)
Definition ProgressCallback : Type := LoadProgress -> list Event.

(** The fields of a [LibreOfficeConverter] object. *)
Record LibreOfficeConverter : Type := mkConverter {
  converter : option WorkerBrowserConverter;
  initialized : bool;
  initializing : bool;
  basePath : string
}.

Definition set_converter (c : option WorkerBrowserConverter)
  (this : LibreOfficeConverter) : LibreOfficeConverter :=
  {| converter := c; initialized := initialized this;
     initializing := initializing this; basePath := basePath this |}.

Definition set_initialized (b : bool) (this : LibreOfficeConverter)
  : LibreOfficeConverter :=
  {| converter := converter this; initialized := b;
     initializing := initializing this; basePath := basePath this |}.

Definition set_initializing (b : bool) (this : LibreOfficeConverter)
  : LibreOfficeConverter :=
  {| converter := converter this; initialized := initialized this;
     initializing := b; basePath := basePath this |}.

(** [constructor(basePath?)]: [this.basePath = basePath || LIBREOFFICE_PATH] *)
Definition new_LibreOfficeConverter (path : option string)
  : LibreOfficeConverter :=
  {| converter := None; initialized := false; initializing := false;
     basePath := or_else (default EmptyString path) LIBREOFFICE_PATH |}.

(** [progressCallback?.(p)] *)
Definition notify {S} (progressCallback : option ProgressCallback)
  (p : LoadProgress) : M S unit :=
  match progressCallback with
  | Some cb => emit (cb p)
  | None => ret tt
  end.

(** The events of [progressCallback?.(p)]. *)
Definition callback_events (progressCallback : option ProgressCallback)
  (p : LoadProgress) : list Event :=
  match progressCallback with
  | Some cb => cb p
  | None => []
  end.

(** *** [checkEnvironment] *)

Definition environment_error (isIsolated : bool) : Thrown :=
  Error ("SharedArrayBuffer is not available (crossOriginIsolated="
         +:+ string_of_bool isIsolated +:+ "). "
         +:+ "Your server must set Cross-Origin-Opener-Policy and Cross-Origin-Embedder-Policy headers. "
         +:+ "See browser console for details.").

(** Steps 1 and 2: cross-origin isolation and [SharedArrayBuffer]. *)
Definition preflight {S} (w : World) : M S unit :=
  let isIsolated := crossOriginIsolated w in
  let hasSAB := hasSharedArrayBuffer w in
  if negb isIsolated || negb hasSAB then throw (environment_error isIsolated)
  else ret tt.

Definition files : list string :=
  [ "soffice.wasm"; "soffice.data"; "soffice.js"; "soffice.worker.js";
    "browser.worker.global.js" ].

Definition required_file_error (file : string) (status : nat) : Thrown :=
  Error ("Required file " +:+ file +:+ " returned HTTP " +:+ string_of_nat status).

(** [e instanceof Error && e.message.startsWith('Required file')] *)
Definition is_required_file_error (e : Thrown) : bool :=
  match e with
  | JsError _ msg => startsWith msg "Required file"
  | JsOther _ => false
  end.

(** The body of the loop of step 3, for one file. *)
Definition probe {S} (w : World) (base file : string) : M S unit :=
  let url := base +:+ file in
  try_catch
    (emit [EvFetchHead url] ;;
     match fetchHead w url with
     | Responds res =>
         if res_ok res then ret tt
         else throw (required_file_error file (res_status res))
     | FetchThrows e => throw e
     end)
    (fun e =>
       if is_required_file_error e then throw e
       else throw (Error ("Cannot fetch " +:+ file +:+ ": " +:+ render e))).

Fixpoint probe_all {S} (w : World) (base : string) (fs : list string)
  : M S unit :=
  match fs with
  | [] => ret tt
  | file :: rest => probe w base file ;; probe_all w base rest
  end.

Definition checkEnvironment (w : World) : M LibreOfficeConverter unit :=
  preflight w ;;
  let* this := get in
  probe_all w (basePath this) files.

(** *** [initialize] *)

Definition engine_options (base : string) : WorkerBrowserConverter :=
  {| sofficeJs := base +:+ "soffice.js";
     sofficeWasm := base +:+ "soffice.wasm";
     sofficeData := base +:+ "soffice.data";
     sofficeWorkerJs := base +:+ "soffice.worker.js";
     browserWorkerJs := base +:+ "browser.worker.global.js";
     verbose := false |}.

(** The [onProgress] hook handed to the engine. *)
Definition relay (progressCallback : option ProgressCallback)
  (info : EngineInfo) : M LibreOfficeConverter unit :=
  let* this := get in
  match progressCallback with
  | Some cb =>
      if negb (initialized this) then
        let simplifiedMessage :=
          "Loading conversion engine ("
          +:+ string_of_Z (round (info_percent info)) +:+ "%)..." in
        emit (cb {| phase := info_phase info;
                    percent := info_percent info;
                    message := simplifiedMessage |})
      else ret tt
  | None => ret tt
  end.

Fixpoint relay_all (progressCallback : option ProgressCallback)
  (infos : list EngineInfo) : M LibreOfficeConverter unit :=
  match infos with
  | [] => ret tt
  | info :: rest => relay progressCallback info ;; relay_all progressCallback rest
  end.

(** What the hook passes on for a list of engine reports. *)
Definition relayed (progressCallback : option ProgressCallback)
  (this : LibreOfficeConverter) (infos : list EngineInfo) : list Event :=
  if initialized this then []
  else
    flat_map
      (fun info =>
         callback_events progressCallback
           {| phase := info_phase info;
              percent := info_percent info;
              message := "Loading conversion engine ("
                         +:+ string_of_Z (round (info_percent info)) +:+ "%)..." |})
      infos.

(** From the second progress message to the call of the engine's
    [initialize()]. *)
Definition engine_startup (progressCallback : option ProgressCallback)
  : M LibreOfficeConverter WorkerBrowserConverter :=
  notify progressCallback
    {| phase := "loading"; percent := 5; message := "Loading conversion engine..." |} ;;
  let* this := get in
  let engine := engine_options (basePath this) in
  modify (set_converter (Some engine)) ;;
  emit [EvEngineNew engine; EvEngineInitialize engine] ;;
  ret engine.

(** What follows [await this.converter.initialize()]. *)
Definition engine_settle (w : World) (progressCallback : option ProgressCallback)
  (engine : WorkerBrowserConverter) : M LibreOfficeConverter unit :=
  relay_all progressCallback (fst (engineInitialize w engine)) ;;
  match snd (engineInitialize w engine) with
  | Some e => throw e
  | None =>
      modify (set_initialized true) ;;
      notify progressCallback
        {| phase := "ready"; percent := 100; message := "Conversion engine ready!" |}
  end.

(** A caller that finds [initializing] set polls the flag every 100 ms and
    returns when it finds it clear, whatever the call in flight has
    reached.  It is that other call that clears the flag: in the run of one
    caller nobody does, and the result is [Pending].  The callers together,
    and the waiter that returns, are in [Concurrent]. *)
Definition initialize (w : World) (onProgress : option ProgressCallback)
  : M LibreOfficeConverter unit :=
  let* this := get in
  if initialized this then ret tt
  else if initializing this then pending
  else
    modify (set_initializing true) ;;
    let progressCallback := onProgress in
    try_finally
      (notify progressCallback
         {| phase := "loading"; percent := 0; message := "Checking environment..." |} ;;
       checkEnvironment w ;;
       let* engine := engine_startup progressCallback in
       engine_settle w progressCallback engine)
      (set_initializing false).

Definition isReady (this : LibreOfficeConverter) : bool :=
  initialized this && match converter this with Some _ => true | None => false end.

(** *** [convert] and its aliases

    [file.arrayBuffer()] gives the content of the file; the [Blob] is
    constructed from the data and the type the engine declares. *)

Definition convert (w : World) (file : File) (outputFormat : string)
  : M LibreOfficeConverter Blob :=
  let* this := get in
  match converter this with
  | None => throw (Error "Converter not initialized")
  | Some engine =>
      try_catch
        (let uint8Array := file_bytes file in
         let ext := extension (file_name file) in
         emit [EvEngineConvert engine uint8Array outputFormat ext (file_name file)] ;;
         match engineConvert w engine uint8Array outputFormat ext (file_name file) with
         | Converts result =>
             let data := result_data result in
             ret (new_Blob data (result_mimeType result))
         | ConvertThrows e => throw e
         end)
        (fun error => throw error)
  end.

Definition convertToPdf (w : World) (file : File) : M LibreOfficeConverter Blob :=
  convert w file "pdf".

Definition wordToPdf (w : World) (file : File) : M LibreOfficeConverter Blob :=
  convertToPdf w file.

Definition pptToPdf (w : World) (file : File) : M LibreOfficeConverter Blob :=
  convertToPdf w file.

Definition excelToPdf (w : World) (file : File) : M LibreOfficeConverter Blob :=
  convertToPdf w file.

(** *** [destroy] *)

Definition destroy (w : World) : M LibreOfficeConverter unit :=
  let* this := get in
  match converter this with
  | Some engine =>
      emit [EvEngineDestroy engine] ;;
      match engineDestroy w engine with
      | Some e => throw e
      | None => ret tt
      end
  | None => ret tt
  end ;;
  modify (set_converter None) ;;
  modify (set_initialized false).

(** The three messages [initialize] sends of its own. *)
Definition hello : LoadProgress :=
  {| phase := "loading"; percent := 0; message := "Checking environment..." |}.

Definition engine_loading : LoadProgress :=
  {| phase := "loading"; percent := 5; message := "Loading conversion engine..." |}.

Definition engine_ready : LoadProgress :=
  {| phase := "ready"; percent := 100; message := "Conversion engine ready!" |}.

(** Two states of an object with the same base path. *)
Definition same_basePath (this this' : LibreOfficeConverter) : Prop :=
  basePath this' = basePath this.

(** *** The module-level singleton

    Objects live in a heap and are named by their index; the module
    variable [converterInstance] holds a reference or [null]. *)

Record Store : Type := mkStore {
  heap : list LibreOfficeConverter;
  converterInstance : option nat
}.

Definition empty_store : Store := {| heap := []; converterInstance := None |}.

(** [new LibreOfficeConverter(basePath)] *)
Definition allocate (path : option string) : M Store nat :=
  fun s =>
    (Ok (length (heap s)),
     {| heap := heap s ++ [new_LibreOfficeConverter path];
        converterInstance := converterInstance s |},
     []).

Definition getLibreOfficeConverter (path : option string) : M Store nat :=
  let* s := get in
  match converterInstance s with
  | None =>
      let* ref := allocate path in
      modify (fun s => {| heap := heap s; converterInstance := Some ref |}) ;;
      ret ref
  | Some ref => ret ref
  end.

(** A method call [ref.m(...)].  References come from [allocate] only, so
    the lookup succeeds on every store a program can reach. *)
Definition on_object {A} (ref : nat) (m : M LibreOfficeConverter A) : M Store A :=
  fun s =>
    match heap s !! ref with
    | Some this =>
        match m this with
        | (r, this', evs) =>
            (r, {| heap := <[ref := this']> (heap s);
                   converterInstance := converterInstance s |}, evs)
        end
    | None => (Pending, s, [])
    end.

End LibreOffice.

(** ** [src/lib/pdf/processors/excel-to-pdf.ts] *)

Module ExcelToPdf.

Import Js Platform Run LibreOffice.
Open Scope run_scope.

(** Modelled from the spec: the error codes of [PDFErrorCode]
    ([@/types/pdf], not among the sources) that [process] uses.  The spec
    calls them InvalidInput, UnsupportedFileType, ProcessingCancelled and
    ProcessingFailed. *)
Inductive PDFErrorCode : Type :=
| INVALID_OPTIONS
| FILE_TYPE_INVALID
| PROCESSING_CANCELLED
| PROCESSING_FAILED.

Record Metadata : Type := mkMetadata { format : string }.

(** Modelled from the spec: [ProcessOutput] ([@/types/pdf], not among the
    sources) is either a success artifact with its file name and declared
    format metadata, or a failure with an error code, a user-facing message
    and an optional diagnostic detail. *)
Inductive ProcessOutput : Type :=
| Success (artifact : Blob) (filename : string) (metadata : Metadata)
| Failure (code : PDFErrorCode) (message : string) (detail : option string).

Record ProcessInput : Type := mkInput { input_files : list File }.

(** Modelled from the spec: [createErrorOutput] and [createSuccessOutput]
    of [BasePDFProcessor] ([../processor], not among the sources) wrap
    their arguments as the two variants of the result. *)
Definition createErrorOutput (code : PDFErrorCode) (message : string)
  (detail : option string) : ProcessOutput :=
  Failure code message detail.

Definition createSuccessOutput (artifact : Blob) (filename : string)
  (metadata : Metadata) : ProcessOutput :=
  Success artifact filename metadata.

(** Modelled from the spec: [updateProgress] of [BasePDFProcessor] (not
    among the sources) delivers the percent value and the message to the
    caller's progress callback. *)
Definition updateProgress {S} (percent : Q) (message : string) : M S unit :=
  emit [EvProgress percent message].

Definition CancelPoint_rank (p : CancelPoint) : nat :=
  match p with
  | BeforeInit => 0
  | DuringInit => 1
  | DuringConvert => 2
  end.

(** Modelled from the spec: [reset] and [checkCancelled] of
    [BasePDFProcessor] (not among the sources).  The call starts with the
    cancellation flag clear; the flag is set by the caller and stays set;
    [checkCancelled] reads it.  [checkCancelled w p] is the value read by a
    check placed after the moment [p]. *)
Definition checkCancelled (w : World) (p : CancelPoint) : bool :=
  match callerCancels w with
  | Some c => (CancelPoint_rank c <=? CancelPoint_rank p)%nat
  | None => false
  end.

Definition validExts : list string := ["xlsx"; "xls"; "ods"; "csv"].

(** Does the whole of [s] match [\.(xlsx?|ods|csv)], ignoring case? *)
Definition matches_extension (s : string) : bool :=
  includes [".xls"; ".xlsx"; ".ods"; ".csv"] (toLowerCase s).

(** [name.replace(/\.(xlsx?|ods|csv)$/i, '')]: the leftmost position from
    which the rest of the name matches is where the name is cut. *)
Fixpoint strip_extension (name : string) : string :=
  if matches_extension name then EmptyString
  else match name with
       | EmptyString => EmptyString
       | String c rest => String c (strip_extension rest)
       end.

(** The callback [process] hands to [initialize]. *)
Definition scaled : ProgressCallback :=
  fun progress =>
    [EvProgress (Qmin (percent progress * (4 # 5)) 80) (message progress)].

(** [ExcelToPDFProcessor.process].  [match files with [file]] is the test
    [files.length !== 1] followed by [files[0]].  The first two statements,
    [this.reset()] and [this.onProgress = onProgress], set up the state
    behind [checkCancelled] and [updateProgress]. *)
Definition process (w : World) (input : ProcessInput) : M Store ProcessOutput :=
  let files := input_files input in
  match files with
  | [file] =>
      let ext := extension (file_name file) in
      if negb (includes validExts ext) then
        ret (createErrorOutput FILE_TYPE_INVALID
               "Invalid file type. Please upload .xlsx, .xls, .ods, or .csv."
               (Some ("Received: " +:+ or_else (file_type file) (file_name file))))
      else
        try_catch
          (updateProgress 5
             "Loading conversion engine (first time may take 1-2 minutes)..." ;;
           let* converter := getLibreOfficeConverter None in
           on_object converter (initialize w (Some scaled)) ;;
           if checkCancelled w DuringInit then
             ret (createErrorOutput PROCESSING_CANCELLED
                    "Processing was cancelled." None)
           else
             updateProgress 85 "Converting Excel to PDF..." ;;
             let* pdfBlob := on_object converter (convertToPdf w file) in
             if checkCancelled w DuringConvert then
               ret (createErrorOutput PROCESSING_CANCELLED
                      "Processing was cancelled." None)
             else
               updateProgress 100 "Conversion complete!" ;;
               let baseName := strip_extension (file_name file) in
               ret (createSuccessOutput pdfBlob (baseName +:+ ".pdf")
                      {| format := "pdf" |}))
          (fun error =>
             ret (createErrorOutput PROCESSING_FAILED
                    "Failed to convert Excel to PDF."
                    (Some (message_or error "Unknown error"))))
  | _ =>
      ret (createErrorOutput INVALID_OPTIONS
             "Please provide exactly one Excel spreadsheet."
             (Some ("Received " +:+ string_of_nat (length files) +:+ " file(s).")))
  end.

(** The results and the progress messages of [process], for reference. *)
Definition invalid_type (file : File) : ProcessOutput :=
  Failure FILE_TYPE_INVALID
    "Invalid file type. Please upload .xlsx, .xls, .ods, or .csv."
    (Some ("Received: " +:+ or_else (file_type file) (file_name file))).

Definition cancelled : ProcessOutput :=
  Failure PROCESSING_CANCELLED "Processing was cancelled." None.

Definition failed (detail : string) : ProcessOutput :=
  Failure PROCESSING_FAILED "Failed to convert Excel to PDF." (Some detail).

Definition converted (pdfBlob : Blob) (file : File) : ProcessOutput :=
  Success pdfBlob (strip_extension (file_name file) +:+ ".pdf")
    {| format := "pdf" |}.

Definition loading : Event :=
  EvProgress 5 "Loading conversion engine (first time may take 1-2 minutes)...".

Definition converting : Event := EvProgress 85 "Converting Excel to PDF...".

Definition complete : Event := EvProgress 100 "Conversion complete!".

(** [excelToPDF(file, options, onProgress)] *)
Definition excelToPDF (w : World) (file : File) : M Store ProcessOutput :=
  process w {| input_files := [file] |}.

End ExcelToPdf.


(** ** What is observed of a run *)

Module Progress.

Import Platform.

(** The percent values delivered to the caller of [process]. *)
Fixpoint percents (evs : list Event) : list Q :=
  match evs with
  | [] => []
  | EvProgress p _ :: rest => p :: percents rest
  | _ :: rest => percents rest
  end.

(** The URLs probed with a HEAD request. *)
Fixpoint fetched (evs : list Event) : list string :=
  match evs with
  | [] => []
  | EvFetchHead url :: rest => url :: fetched rest
  | _ :: rest => fetched rest
  end.

(** The requests of a loop over [fs] that is not interrupted. *)
Definition probe_events (base : string) (fs : list string) : list Event :=
  map (fun f => EvFetchHead (base +:+ f)) fs.

Definition is_engine_new (e : Event) : bool :=
  match e with EvEngineNew _ => true | _ => false end.

(** The number of engines constructed. *)
Definition startups (evs : list Event) : nat :=
  length (List.filter is_engine_new evs).

(** The engine calls [convert] of a run. *)
Definition is_engine_convert (e : Event) : bool :=
  match e with EvEngineConvert _ _ _ _ _ => true | _ => false end.

Definition is_engine_event (e : Event) : bool :=
  match e with
  | EvEngineNew _ | EvEngineInitialize _ | EvEngineConvert _ _ _ _ _
  | EvEngineDestroy _ => true
  | _ => false
  end.

Definition is_engine_destroy (e : Event) : bool :=
  match e with EvEngineDestroy _ => true | _ => false end.

Fixpoint nondecreasing (l : list Q) : Prop :=
  match l with
  | x :: (y :: _) as rest => (x <= y)%Q /\ nondecreasing rest
  | _ => True
  end.

(** A progress event of at most [bound] percent, or another event. *)
Definition progress_below (bound : Q) (e : Event) : Prop :=
  match e with
  | EvProgress p _ => (p <= bound)%Q
  | _ => True
  end.

End Progress.

(** ** What [initialize] reports *)

Module Reports.

Import Js Platform Run LibreOffice Progress.

(** A progress callback that delivers the percent and the message it is
    given, as they are. *)
Definition plain : ProgressCallback :=
  fun progress => [EvProgress (percent progress) (message progress)].

(** The percent values that a call of [initialize] on the object [ref] of
    the store reports to its progress callback, in order. *)
Definition initialize_reports (w : World) (ref : nat) (s : Store) : list Q :=
  percents (snd (on_object ref (initialize w (Some plain)) s)).

End Reports.

(** ** The extension of a file name, as the specification words it *)

Module Specification.

Import Js.

(** The part of the name after its last dot, if the name has a dot. *)
Fixpoint after_last_dot (name : string) : option string :=
  match name with
  | EmptyString => None
  | String c rest =>
      match after_last_dot rest with
      | Some ext => Some ext
      | None => if Ascii.eqb c "." then Some rest else None
      end
  end.

(** "The file's extension (the part after the last dot, lowercased)"; a
    name without a dot has no such part. *)
Definition extension_after_dot (name : string) : string :=
  match after_last_dot name with
  | Some ext => toLowerCase ext
  | None => EmptyString
  end.

(** The part of the name after its last dot, and the whole name when it
    has no dot. *)
Definition last_piece (name : string) : string :=
  default name (after_last_dot name).

End Specification.

(** ** Several callers of [initialize] on one object

    JavaScript runs one caller at a time and switches at an [await].  A call
    of [initialize] is cut into the segments that run without interruption;
    a schedule says whose segment runs next. *)

Module Concurrent.

Import Js Platform Run LibreOffice Progress.
Open Scope run_scope.

(** Where a call of [initialize] stands. *)
Inductive Task : Type :=
| NotCalled
  (** asleep in the loop [while (this.initializing)] *)
| Polling
  (** [checkEnvironment] has rejected; [initialize] has not resumed yet *)
| Rejected (e : Thrown)
  (** inside [checkEnvironment], these files still to be probed *)
| Probing (rest : list string)
  (** awaiting [this.converter.initialize()] *)
| Starting (engine : WorkerBrowserConverter)
  (** returned ([None]) or thrown *)
| Settled (outcome : option Thrown)
  (** a promise that never settles *)
| Never.

Record System : Type := mkSystem {
  handle : LibreOfficeConverter;
  tasks : list Task;
  log : list Event
}.

Section Step.

Variable w : World.
(** the [onProgress] argument of each caller *)
Variable onProgress : nat -> option ProgressCallback.

(** A segment inside [checkEnvironment]: a throw rejects its promise. *)
Definition checking {A} (m : M LibreOfficeConverter A) (next : A -> Task)
  (this : LibreOfficeConverter) : Task * LibreOfficeConverter * list Event :=
  match m this with
  | (Ok a, this', evs) => (next a, this', evs)
  | (Throw e, this', evs) => (Rejected e, this', evs)
  | (Pending, this', evs) => (Never, this', evs)
  end.

(** A segment of the [try] block of [initialize] itself: a throw runs the
    [finally] clause; so does the end of the block. *)
Definition trying {A} (m : M LibreOfficeConverter A) (next : A -> Task)
  (last : bool) (this : LibreOfficeConverter)
  : Task * LibreOfficeConverter * list Event :=
  match m this with
  | (Ok a, this', evs) =>
      (next a, if last then set_initializing false this' else this', evs)
  | (Throw e, this', evs) => (Settled (Some e), set_initializing false this', evs)
  | (Pending, this', evs) => (Never, this', evs)
  end.

(** The next segment of caller [i]. *)
Definition advance (i : nat) (t : Task) (this : LibreOfficeConverter)
  : Task * LibreOfficeConverter * list Event :=
  match t with
  | NotCalled =>
      if initialized this then (Settled None, this, [])
      else if initializing this then (Polling, this, [])
      else
        checking
          (modify (set_initializing true) ;;
           notify (onProgress i)
             {| phase := "loading"; percent := 0; message := "Checking environment..." |} ;;
           preflight w)
          (fun _ => Probing files) this
  | Polling =>
      if initializing this then (Polling, this, []) else (Settled None, this, [])
  | Rejected e => (Settled (Some e), set_initializing false this, [])
  | Probing (file :: rest) =>
      checking (probe w (basePath this) file) (fun _ => Probing rest) this
  | Probing [] =>
      trying (engine_startup (onProgress i)) (fun engine => Starting engine) false this
  | Starting engine =>
      trying (engine_settle w (onProgress i) engine) (fun _ => Settled None) true this
  | Settled outcome => (Settled outcome, this, [])
  | Never => (Never, this, [])
  end.

Definition step (i : nat) (sys : System) : System :=
  match tasks sys !! i with
  | Some t =>
      match advance i t (handle sys) with
      | (t', this', evs) =>
          {| handle := this'; tasks := <[i := t']> (tasks sys);
             log := log sys ++ evs |}
      end
  | None => sys
  end.

Definition run (schedule : list nat) (sys : System) : System :=
  fold_left (fun s i => step i s) schedule sys.

End Step.

(** [n] callers that have not called yet. *)
Definition initial (this : LibreOfficeConverter) (n : nat) : System :=
  {| handle := this; tasks := replicate n NotCalled; log := [] |}.

(** Is the caller the one that runs the initialization sequence? *)
Definition in_flight (t : Task) : bool :=
  match t with
  | Rejected _ | Probing _ | Starting _ | Never => true
  | NotCalled | Polling | Settled _ => false
  end.

(** The number of callers that are running the initialization sequence. *)
Fixpoint in_flight_count (ts : list Task) : nat :=
  match ts with
  | [] => 0
  | t :: rest => (if in_flight t then 1 else 0) + in_flight_count rest
  end.

(** The flag [initializing] is set exactly while one caller runs the
    sequence, and no two callers ever do. *)
Definition exclusive (sys : System) : Prop :=
  in_flight_count (tasks sys) = if initializing (handle sys) then 1 else 0.

(** Progress callbacks do not construct engines. *)
Definition quiet (onProgress : nat -> option ProgressCallback) : Prop :=
  forall i cb p, onProgress i = Some cb -> startups (cb p) = 0.

(** Two callers, the second of which found the first at work: what holds
    from then on. *)
Definition shared_invariant (sys : System) : Prop :=
  exists first second,
    tasks sys = [first; second] /\
    (second = Polling \/
     (second = Settled None /\ exists outcome, first = Settled outcome)) /\
    startups (log sys) <= 1 /\
    match first with
    | NotCalled | Polling => False
    | Rejected _ | Probing _ =>
        initializing (handle sys) = true /\ startups (log sys) = 0
    | Starting engine =>
        initializing (handle sys) = true /\
        converter (handle sys) = Some engine
    | Never => initializing (handle sys) = true
    | Settled outcome =>
        initializing (handle sys) = false /\
        (outcome = None -> isReady (handle sys) = true)
    end.

(** The outcome of a call that ran to completion. *)
Definition outcome_of (r : Res unit) : Task :=
  match r with
  | Ok _ => Settled None
  | Throw e => Settled (Some e)
  | Pending => Never
  end.

End Concurrent.

(** ** Programs that use the module *)

Module Client.

Import Js Platform Run LibreOffice ExcelToPdf.
Open Scope run_scope.

(** What code that imports the two modules can do with them. *)
Inductive Action : Type :=
| GetConverter (path : option string)
| NewConverter (path : option string)
| Initialize (ref : nat) (w : World) (onProgress : option ProgressCallback)
| Convert (ref : nat) (w : World) (file : File) (outputFormat : string)
| Destroy (ref : nat) (w : World)
| Process (w : World) (input : ProcessInput).

Definition perform (a : Action) : M Store unit :=
  match a with
  | GetConverter path => getLibreOfficeConverter path ;; ret tt
  | NewConverter path => allocate path ;; ret tt
  | Initialize ref w onProgress => on_object ref (initialize w onProgress)
  | Convert ref w file outputFormat =>
      on_object ref (convert w file outputFormat) ;; ret tt
  | Destroy ref w => on_object ref (destroy w)
  | Process w input => process w input ;; ret tt
  end.

(** The store after the actions, whatever each of them returned. *)
Fixpoint perform_all (program : list Action) (s : Store) : Store :=
  match program with
  | [] => s
  | a :: rest => perform_all rest (snd (fst (perform a s)))
  end.

(** The singleton is the object [ref], constructed with base path
    [path]. *)
Definition pinned (ref : nat) (path : string) (s : Store) : Prop :=
  converterInstance s = Some ref /\
  exists this, heap s !! ref = Some this /\ basePath this = path.

Definition stays_pinned (ref : nat) (path : string) (s s' : Store) : Prop :=
  pinned ref path s -> pinned ref path s'.

(** The singleton, if it exists, is an object of the heap on which no
    initialization is in flight. *)
Definition settled_store (s : Store) : Prop :=
  match converterInstance s with
  | Some ref =>
      exists this, heap s !! ref = Some this /\ initializing this = false
  | None => True
  end.

End Client.

(** ** Properties of runs *)

Module Logic.

Import Platform Run.

(** Every event of every run of [m] satisfies [P]. *)
Definition Emits {S A} (P : Event -> Prop) (m : M S A) : Prop :=
  forall s r s' evs, m s = (r, s', evs) -> Forall P evs.

(** Every run of [m] relates the state it starts in to the state it ends
    in. *)
Definition Preserves {S A} (R : S -> S -> Prop) (m : M S A) : Prop :=
  forall s r s' evs, m s = (r, s', evs) -> R s s'.

End Logic.

(** ** Concrete worlds and inputs *)

Module Scenarios.

Import Js Platform Run LibreOffice ExcelToPdf.

Definition ok_response : Response :=
  {| res_status := 200; res_statusText := "OK";
     res_content_length := Some "1048576";
     res_content_type := Some "application/wasm" |}.

Definition not_found : Response :=
  {| res_status := 404; res_statusText := "Not Found";
     res_content_length := None; res_content_type := None |}.

Definition report (percent : Q) : EngineInfo :=
  {| info_phase := "initializing"; info_percent := percent;
     info_message := "Starting LibreOffice" |}.

(** A deployment in which everything works; the engine reports 0, 50 and
    100 percent while it starts. *)
Definition working : World :=
  {| crossOriginIsolated := true;
     hasSharedArrayBuffer := true;
     fetchHead := fun _ => Responds ok_response;
     engineInitialize := fun _ => ([report 0; report 50; report 100], None);
     engineConvert := fun _ data _ _ _ =>
       Converts {| result_data := data; result_mimeType := "application/pdf" |};
     engineDestroy := fun _ => None;
     callerCancels := None |}.

(** The same, with a caller that cancels at the given moment. *)
Definition cancelling (p : CancelPoint) : World :=
  {| crossOriginIsolated := true;
     hasSharedArrayBuffer := true;
     fetchHead := fetchHead working;
     engineInitialize := engineInitialize working;
     engineConvert := engineConvert working;
     engineDestroy := engineDestroy working;
     callerCancels := Some p |}.

(** [soffice.data] was not deployed; the caller may cancel. *)
Definition missing_data (cancel : option CancelPoint) : World :=
  {| crossOriginIsolated := true;
     hasSharedArrayBuffer := true;
     fetchHead := fun url =>
       if String.eqb url "/libreoffice-wasm/soffice.data"
       then Responds not_found else Responds ok_response;
     engineInitialize := engineInitialize working;
     engineConvert := engineConvert working;
     engineDestroy := engineDestroy working;
     callerCancels := cancel |}.

(** The first file was not deployed. *)
Definition missing_wasm : World :=
  {| crossOriginIsolated := true;
     hasSharedArrayBuffer := true;
     fetchHead := fun url =>
       if String.eqb url "/libreoffice-wasm/soffice.wasm"
       then Responds not_found else Responds ok_response;
     engineInitialize := engineInitialize working;
     engineConvert := engineConvert working;
     engineDestroy := engineDestroy working;
     callerCancels := None |}.

(** The engine worker fails to start, and refuses to convert. *)
Definition broken_engine : World :=
  {| crossOriginIsolated := true;
     hasSharedArrayBuffer := true;
     fetchHead := fetchHead working;
     engineInitialize := fun _ => ([report 0], Some (Error "Worker failed to start"));
     engineConvert := fun _ _ _ _ _ =>
       ConvertThrows (Error "Worker is not running");
     engineDestroy := engineDestroy working;
     callerCancels := None |}.

(** The engine starts but rejects every document. *)
Definition rejecting_engine : World :=
  {| crossOriginIsolated := true;
     hasSharedArrayBuffer := true;
     fetchHead := fetchHead working;
     engineInitialize := engineInitialize working;
     engineConvert := fun _ _ _ _ _ =>
       ConvertThrows (JsError "Error" "Document could not be loaded");
     engineDestroy := engineDestroy working;
     callerCancels := None |}.

Definition sheet : File :=
  {| file_name := "report.xlsx";
     file_type := "application/vnd.openxmlformats-officedocument.spreadsheetml.sheet";
     file_bytes := [Byte.x50; Byte.x4b] |}.

Definition notes : File :=
  {| file_name := "notes.txt"; file_type := "text/plain"; file_bytes := [] |}.

(** A store in which the singleton exists and is initialized. *)
Definition warm : Store :=
  {| heap :=
       [ {| converter := Some (engine_options LIBREOFFICE_PATH);
            initialized := true; initializing := false;
            basePath := LIBREOFFICE_PATH |} ];
     converterInstance := Some 0 |}.

(** The page is not cross-origin isolated. *)
Definition not_isolated : World :=
  {| crossOriginIsolated := false;
     hasSharedArrayBuffer := true;
     fetchHead := fetchHead working;
     engineInitialize := engineInitialize working;
     engineConvert := engineConvert working;
     engineDestroy := engineDestroy working;
     callerCancels := None |}.

(** The request for [soffice.js] fails in the network. *)
Definition offline : World :=
  {| crossOriginIsolated := true;
     hasSharedArrayBuffer := true;
     fetchHead := fun url =>
       if String.eqb url "/libreoffice-wasm/soffice.js"
       then FetchThrows (JsError "TypeError" "Failed to fetch")
       else Responds ok_response;
     engineInitialize := engineInitialize working;
     engineConvert := engineConvert working;
     engineDestroy := engineDestroy working;
     callerCancels := None |}.

(** The engine cannot be shut down. *)
Definition stubborn_engine : World :=
  {| crossOriginIsolated := true;
     hasSharedArrayBuffer := true;
     fetchHead := fetchHead working;
     engineInitialize := engineInitialize working;
     engineConvert := engineConvert working;
     engineDestroy := fun _ => Some (Error "Worker does not answer");
     callerCancels := None |}.

(** An initialized object, as [warm] holds it. *)
Definition ready_converter : LibreOfficeConverter :=
  {| converter := Some (engine_options LIBREOFFICE_PATH);
     initialized := true; initializing := false;
     basePath := LIBREOFFICE_PATH |}.

(** A file whose name has no dot. *)
Definition bare : File :=
  {| file_name := "CSV"; file_type := ""; file_bytes := [Byte.x61] |}.

(** An engine that declares the MIME type of its result in capitals. *)
Definition capitals_engine : World :=
  {| crossOriginIsolated := true;
     hasSharedArrayBuffer := true;
     fetchHead := fetchHead working;
     engineInitialize := engineInitialize working;
     engineConvert := fun _ data _ _ _ =>
       Converts {| result_data := data; result_mimeType := "Application/PDF" |};
     engineDestroy := engineDestroy working;
     callerCancels := None |}.

End Scenarios.

(** * Properties *)

Module StringFacts.
Import Js Platform Run LibreOffice ExcelToPdf.

Lemma app_empty (b : string) : EmptyString +:+ b = b.
Proof. reflexivity. Qed.

Lemma app_String (c : ascii) (a b : string) :
  String c a +:+ b = String c (a +:+ b).
Proof. reflexivity. Qed.

Lemma toLowerCase_app (a b : string) :
  toLowerCase (a +:+ b) = toLowerCase a +:+ toLowerCase b.
Proof.
  induction a as [| c a IH]; rewrite ?app_empty, ?app_String; simpl;
    [reflexivity | now rewrite IH].
Qed.

Lemma toLowerCase_length (a : string) :
  String.length (toLowerCase a) = String.length a.
Proof.
  induction a as [| c a IH]; simpl; [reflexivity | now rewrite IH].
Qed.

Lemma lower_ascii_dot (c : ascii) : lower_ascii c = "."%char -> c = "."%char.
Proof.
  destruct c as [[] [] [] [] [] [] [] []]; vm_compute; congruence.
Qed.

Lemma app_length (a b : string) :
  String.length (a +:+ b) = String.length a + String.length b.
Proof.
  induction a as [| c a IH]; rewrite ?app_empty, ?app_String; simpl;
    [reflexivity | now rewrite IH].
Qed.

Lemma matches_extension_length (s : string) :
  matches_extension s = true -> String.length s = 4 \/ String.length s = 5.
Proof.
  unfold matches_extension, includes. simpl.
  rewrite !orb_true_iff, !String.eqb_eq.
  intros H. rewrite <- (toLowerCase_length s).
  destruct H as [H | [H | [H | [H | H]]]]; try discriminate;
    rewrite H; simpl; auto.
Qed.

Lemma matches_extension_second_dot (c : ascii) (r : string) :
  matches_extension (String c (String "." r)) = false.
Proof.
  unfold matches_extension, includes. cbn.
  destruct (Ascii.eqb (lower_ascii c) "."); reflexivity.
Qed.

Lemma matches_extension_dot (ext : string) :
  In (toLowerCase ext) validExts -> matches_extension (String "." ext) = true.
Proof.
  unfold matches_extension, validExts. cbn [toLowerCase].
  change (lower_ascii ".") with "."%char.
  intros [H | [H | [H | [H | []]]]]; rewrite <- H; reflexivity.
Qed.

(** Cutting [base.ext] at a supported extension gives back [base]. *)
Lemma strip_extension_base (base ext : string) :
  In (toLowerCase ext) validExts ->
  strip_extension (base +:+ "." +:+ ext) = base.
Proof.
  intros Hext.
  assert (Hlen : 3 <= String.length ext).
  { rewrite <- toLowerCase_length.
    destruct Hext as [H | [H | [H | [H | []]]]]; rewrite <- H; simpl; lia. }
  induction base as [| c base IH].
  - rewrite app_empty, app_String, app_empty. cbn [strip_extension].
    now rewrite matches_extension_dot.
  - rewrite app_String. cbn [strip_extension].
    replace (matches_extension (String c (base +:+ "." +:+ ext))) with false.
    + now rewrite IH.
    + symmetry. destruct base as [| d base].
      * apply matches_extension_second_dot.
      * apply not_true_is_false. intros Hm.
        apply matches_extension_length in Hm.
        rewrite app_String in Hm. cbn [String.length] in Hm.
        rewrite !app_length in Hm. cbn [String.length] in Hm. lia.
Qed.

Lemma split_not_nil (sep : ascii) (s : string) : split sep s <> [].
Proof.
  destruct s as [| c s]; simpl; [discriminate |].
  destruct (Ascii.eqb c sep); [discriminate |].
  destruct (split sep s); discriminate.
Qed.

Lemma split_without (sep : ascii) (s : string) :
  contains sep s = false -> split sep s = [s].
Proof.
  induction s as [| c s IH]; simpl; [reflexivity |].
  intros H. apply orb_false_iff in H as [Hc Hs].
  rewrite Hc, (IH Hs). reflexivity.
Qed.

Lemma split_app (sep : ascii) (a b : string) :
  split sep (a +:+ String sep b) = split sep a ++ split sep b.
Proof.
  induction a as [| c a IH]; rewrite ?app_empty, ?app_String.
  - simpl. now rewrite Ascii.eqb_refl.
  - simpl. rewrite IH. destruct (Ascii.eqb c sep); [reflexivity |].
    pose proof (split_not_nil sep a) as Hne.
    destruct (split sep a) as [| seg segs]; [congruence | reflexivity].
Qed.

Lemma or_else_empty (a : string) : or_else a EmptyString = a.
Proof. now destruct a. Qed.

(** On a name with a dot, [extension] is the part after the last dot,
    lowercased ... *)
Lemma extension_after_last_dot (base ext : string) :
  contains "." ext = false ->
  extension (base +:+ "." +:+ ext) = toLowerCase ext.
Proof.
  intros Hext. unfold extension.
  change ("." +:+ ext) with (String "." ext).
  rewrite split_app, (split_without _ _ Hext), last_snoc.
  apply or_else_empty.
Qed.

(** ... and on a name without a dot it is the whole name, lowercased. *)
Lemma extension_without_dot (name : string) :
  contains "." name = false -> extension name = toLowerCase name.
Proof.
  intros Hname. unfold extension.
  rewrite (split_without _ _ Hname). apply or_else_empty.
Qed.

(** The pieces of a name split at its dots: the name itself when it has no
    dot, and otherwise at least two pieces, the last of which is the part
    after the last dot. *)
Lemma split_after_last_dot (name : string) :
  match Specification.after_last_dot name with
  | None => split "." name = [name]
  | Some ext => exists first middle, split "." name = first :: middle ++ [ext]
  end.
Proof.
  induction name as [| c rest IH]; [reflexivity |].
  cbn [Specification.after_last_dot split].
  destruct (Specification.after_last_dot rest) as [ext |].
  - destruct IH as (first & middle & ->).
    destruct (Ascii.eqb c ".").
    + now exists EmptyString, (first :: middle).
    + now exists (String c first), middle.
  - rewrite IH. destruct (Ascii.eqb c ".").
    + now exists EmptyString, [].
    + reflexivity.
Qed.

(** So [extension] is the lowercased part after the last dot, and the
    lowercased name when there is no dot. *)
Lemma extension_last_piece (name : string) :
  extension name = toLowerCase (Specification.last_piece name).
Proof.
  unfold extension, Specification.last_piece.
  pose proof (split_after_last_dot name) as H.
  destruct (Specification.after_last_dot name) as [ext |].
  - destruct H as (first & middle & ->).
    rewrite app_comm_cons, last_snoc. apply or_else_empty.
  - rewrite H. apply or_else_empty.
Qed.

End StringFacts.

(** ** The monad *)

Module RunFacts.

Import Js Platform Run Logic.

Section Laws.

Context {S A B : Type}.

Lemma bind_Ok (m : M S A) (f : A -> M S B) s a s1 t1 :
  m s = (Ok a, s1, t1) ->
  bind m f s = (let '(r, s2, t2) := f a s1 in (r, s2, t1 ++ t2)).
Proof. unfold bind. now intros ->. Qed.

Lemma bind_Throw (m : M S A) (f : A -> M S B) s e s1 t1 :
  m s = (Throw e, s1, t1) -> bind m f s = (Throw e, s1, t1).
Proof. unfold bind. now intros ->. Qed.

Lemma bind_Pending (m : M S A) (f : A -> M S B) s s1 t1 :
  m s = (Pending, s1, t1) -> bind m f s = (Pending, s1, t1).
Proof. unfold bind. now intros ->. Qed.



Lemma try_catch_Ok (m : M S A) (h : Thrown -> M S A) s a s1 t1 :
  m s = (Ok a, s1, t1) -> try_catch m h s = (Ok a, s1, t1).
Proof. unfold try_catch. now intros ->. Qed.

Lemma try_catch_Throw (m : M S A) (h : Thrown -> M S A) s e s1 t1 :
  m s = (Throw e, s1, t1) ->
  try_catch m h s = (let '(r, s2, t2) := h e s1 in (r, s2, t1 ++ t2)).
Proof. unfold try_catch. now intros ->. Qed.

Lemma try_catch_Pending (m : M S A) (h : Thrown -> M S A) s s1 t1 :
  m s = (Pending, s1, t1) -> try_catch m h s = (Pending, s1, t1).
Proof. unfold try_catch. now intros ->. Qed.

End Laws.

(** [Emits] follows the structure of the code. *)
Section EmitsRules.

Context {S : Type} (P : Event -> Prop).

Lemma Emits_ret {A} (a : A) : Emits P (@ret S A a).
Proof. intros s r s' evs [= <- <- <-]. constructor. Qed.

Lemma Emits_throw {A} (e : Thrown) : Emits P (@throw S A e).
Proof. intros s r s' evs [= <- <- <-]. constructor. Qed.

Lemma Emits_pending {A} : Emits P (@pending S A).
Proof. intros s r s' evs [= <- <- <-]. constructor. Qed.

Lemma Emits_get : Emits P (@get S).
Proof. intros s r s' evs [= <- <- <-]. constructor. Qed.

Lemma Emits_modify (f : S -> S) : Emits P (modify f).
Proof. intros s r s' evs [= <- <- <-]. constructor. Qed.

Lemma Emits_emit (l : list Event) : Forall P l -> Emits P (@emit S l).
Proof. intros Hl s r s' evs [= <- <- <-]. exact Hl. Qed.

Lemma Emits_bind {A B} (m : M S A) (f : A -> M S B) :
  Emits P m -> (forall a, Emits P (f a)) -> Emits P (bind m f).
Proof.
  intros Hm Hf s r s' evs. unfold bind.
  destruct (m s) as [[r1 s1] t1] eqn:E1. specialize (Hm _ _ _ _ E1).
  destruct r1 as [a | e |]; try (intros [= <- <- <-]; exact Hm).
  destruct (f a s1) as [[r2 s2] t2] eqn:E2. specialize (Hf _ _ _ _ _ E2).
  intros [= <- <- <-]. apply Forall_app. now split.
Qed.

Lemma Emits_try_catch {A} (m : M S A) (h : Thrown -> M S A) :
  Emits P m -> (forall e, Emits P (h e)) -> Emits P (try_catch m h).
Proof.
  intros Hm Hh s r s' evs. unfold try_catch.
  destruct (m s) as [[r1 s1] t1] eqn:E1. specialize (Hm _ _ _ _ E1).
  destruct r1 as [a | e |]; try (intros [= <- <- <-]; exact Hm).
  destruct (h e s1) as [[r2 s2] t2] eqn:E2. specialize (Hh _ _ _ _ _ E2).
  intros [= <- <- <-]. apply Forall_app. now split.
Qed.

Lemma Emits_try_finally {A} (m : M S A) (fin : S -> S) :
  Emits P m -> Emits P (try_finally m fin).
Proof.
  intros Hm s r s' evs. unfold try_finally.
  destruct (m s) as [[r1 s1] t1] eqn:E1. specialize (Hm _ _ _ _ E1).
  destruct r1; intros [= <- <- <-]; exact Hm.
Qed.

End EmitsRules.

(** So does [Preserves], for a reflexive and transitive relation. *)
Section PreservesRules.

Context {S : Type} (R : S -> S -> Prop).
Hypothesis R_refl : forall s, R s s.
Hypothesis R_trans : forall s1 s2 s3, R s1 s2 -> R s2 s3 -> R s1 s3.

Lemma Preserves_ret {A} (a : A) : Preserves R (@ret S A a).
Proof. intros s r s' evs [= <- <- <-]. apply R_refl. Qed.

Lemma Preserves_throw {A} (e : Thrown) : Preserves R (@throw S A e).
Proof. intros s r s' evs [= <- <- <-]. apply R_refl. Qed.

Lemma Preserves_pending {A} : Preserves R (@pending S A).
Proof. intros s r s' evs [= <- <- <-]. apply R_refl. Qed.

Lemma Preserves_get : Preserves R (@get S).
Proof. intros s r s' evs [= <- <- <-]. apply R_refl. Qed.

Lemma Preserves_emit (l : list Event) : Preserves R (@emit S l).
Proof. intros s r s' evs [= <- <- <-]. apply R_refl. Qed.

Lemma Preserves_modify (f : S -> S) :
  (forall s, R s (f s)) -> Preserves R (modify f).
Proof. intros Hf s r s' evs [= <- <- <-]. apply Hf. Qed.

Lemma Preserves_bind {A B} (m : M S A) (f : A -> M S B) :
  Preserves R m -> (forall a, Preserves R (f a)) -> Preserves R (bind m f).
Proof.
  intros Hm Hf s r s' evs. unfold bind.
  destruct (m s) as [[r1 s1] t1] eqn:E1. specialize (Hm _ _ _ _ E1).
  destruct r1 as [a | e |]; try (intros [= <- <- <-]; exact Hm).
  destruct (f a s1) as [[r2 s2] t2] eqn:E2. specialize (Hf _ _ _ _ _ E2).
  intros [= <- <- <-]. eapply R_trans; eassumption.
Qed.

Lemma Preserves_try_catch {A} (m : M S A) (h : Thrown -> M S A) :
  Preserves R m -> (forall e, Preserves R (h e)) -> Preserves R (try_catch m h).
Proof.
  intros Hm Hh s r s' evs. unfold try_catch.
  destruct (m s) as [[r1 s1] t1] eqn:E1. specialize (Hm _ _ _ _ E1).
  destruct r1 as [a | e |]; try (intros [= <- <- <-]; exact Hm).
  destruct (h e s1) as [[r2 s2] t2] eqn:E2. specialize (Hh _ _ _ _ _ E2).
  intros [= <- <- <-]. eapply R_trans; eassumption.
Qed.

Lemma Preserves_try_finally {A} (m : M S A) (fin : S -> S) :
  Preserves R m -> (forall s, R s (fin s)) -> Preserves R (try_finally m fin).
Proof.
  intros Hm Hfin s r s' evs. unfold try_finally.
  destruct (m s) as [[r1 s1] t1] eqn:E1. specialize (Hm _ _ _ _ E1).
  destruct r1; intros [= <- <- <-]; try exact Hm;
    (eapply R_trans; [exact Hm | apply Hfin]).
Qed.

End PreservesRules.

End RunFacts.

(** ** [checkEnvironment] *)

Module ProbeFacts.

Import Js Platform Run LibreOffice Progress Logic RunFacts.

Lemma fetched_probe_events (base : string) (fs : list string) :
  fetched (probe_events base fs) = map (fun f => base +:+ f) fs.
Proof.
  induction fs as [| f fs IH]; simpl; [reflexivity | now rewrite IH].
Qed.

Lemma is_required_file_error_required (file : string) (status : nat) :
  is_required_file_error (required_file_error file status) = true.
Proof. reflexivity. Qed.

Section Probe.

Context {S : Type} (w : World) (base : string).

Lemma probe_ok (file : string) (res : Response) (s : S) :
  fetchHead w (base +:+ file) = Responds res -> res_ok res = true ->
  probe w base file s = (Ok tt, s, [EvFetchHead (base +:+ file)]).
Proof.
  intros Hf Hok. unfold probe, try_catch, bind, emit, ret. now rewrite Hf, Hok.
Qed.

Lemma probe_failed (file : string) (res : Response) (s : S) :
  fetchHead w (base +:+ file) = Responds res -> res_ok res = false ->
  probe w base file s =
    (Throw (required_file_error file (res_status res)), s,
     [EvFetchHead (base +:+ file)]).
Proof.
  intros Hf Hok. unfold probe, try_catch, bind, emit, throw.
  rewrite Hf, Hok. cbn. reflexivity.
Qed.

(** A probe leaves the state alone and sends exactly one request. *)
Lemma probe_frame (file : string) (s : S) r s' evs :
  probe w base file s = (r, s', evs) ->
  s' = s /\ evs = [EvFetchHead (base +:+ file)] /\ r <> Pending.
Proof.
  unfold probe, try_catch, bind, emit, throw, ret.
  destruct (fetchHead w (base +:+ file)) as [res | e].
  - destruct (res_ok res); cbn; intros [= <- <- <-]; repeat split; discriminate.
  - cbn. destruct (is_required_file_error e); cbn;
      intros [= <- <- <-]; repeat split; discriminate.
Qed.

Lemma probe_all_ok (fs : list string) (s : S) :
  (forall f, In f fs ->
     exists r, fetchHead w (base +:+ f) = Responds r /\ res_ok r = true) ->
  probe_all w base fs s = (Ok tt, s, probe_events base fs).
Proof.
  induction fs as [| f fs IH]; intros Hall; [reflexivity |].
  destruct (Hall f (or_introl eq_refl)) as (r & Hf & Hok).
  cbn [probe_all]. rewrite (bind_Ok _ _ _ _ _ _ (probe_ok f r s Hf Hok)).
  rewrite IH by (intros g Hg; apply Hall; now right). reflexivity.
Qed.

(** The loop stops at the first file whose probe is not answered with a
    success status. *)
Lemma probe_all_first_failure (before after : list string) (file : string)
  (res : Response) (s : S) :
  (forall f, In f before ->
     exists r, fetchHead w (base +:+ f) = Responds r /\ res_ok r = true) ->
  fetchHead w (base +:+ file) = Responds res -> res_ok res = false ->
  probe_all w base (before ++ file :: after) s =
    (Throw (required_file_error file (res_status res)), s,
     probe_events base (before ++ [file])).
Proof.
  intros Hall Hf Hok.
  induction before as [| g before IH].
  - cbn [app probe_all].
    now rewrite (bind_Throw _ _ _ _ _ _ (probe_failed file res s Hf Hok)).
  - destruct (Hall g (or_introl eq_refl)) as (r & Hg & Hgok).
    cbn [app probe_all]. rewrite (bind_Ok _ _ _ _ _ _ (probe_ok g r s Hg Hgok)).
    rewrite IH by (intros h Hh; apply Hall; now right). reflexivity.
Qed.

Lemma probe_all_frame (fs : list string) (s : S) r s' evs :
  probe_all w base fs s = (r, s', evs) ->
  s' = s /\ r <> Pending /\ Forall (fun e => is_engine_event e = false) evs /\
  percents evs = [].
Proof.
  revert r s' evs. induction fs as [| f fs IH]; intros r s' evs.
  - cbn. intros [= <- <- <-]. repeat split; [discriminate | constructor].
  - cbn [probe_all]. unfold bind.
    destruct (probe w base f s) as [[r1 s1] t1] eqn:Hp.
    apply probe_frame in Hp as (-> & -> & Hr1).
    destruct r1 as [[] | e |]; [| | congruence].
    + destruct (probe_all w base fs s) as [[r2 s2] t2] eqn:Hrest.
      destruct (IH _ _ _ eq_refl) as (-> & Hr2 & Hev & Hpc).
      intros [= <- <- <-]. repeat split; auto.
    + intros [= <- <- <-]. repeat split; try discriminate; auto.
Qed.

End Probe.

End ProbeFacts.

(** ** The lifecycle methods *)

Module LifecycleFacts.

Import Js Platform Run LibreOffice Progress Logic RunFacts ProbeFacts.
Open Scope run_scope.

Lemma set_initializing_cancel (this : LibreOfficeConverter) :
  initializing this = false ->
  set_initializing false (set_initializing true this) = this.
Proof. destruct this; cbn; now intros ->. Qed.

(** *** What the methods emit *)

Section Emitted.

Context (P : Event -> Prop).

Lemma Emits_notify {S} (cb : option ProgressCallback) (p : LoadProgress) :
  (forall c q, cb = Some c -> Forall P (c q)) -> Emits P (@notify S cb p).
Proof.
  intros Hcb. destruct cb as [c |]; cbn.
  - apply Emits_emit. now apply Hcb.
  - apply Emits_ret.
Qed.

Lemma Emits_probe {S} (w : World) (base file : string) :
  (forall url, P (EvFetchHead url)) -> Emits P (@probe S w base file).
Proof.
  intros HP s r s' evs Hrun.
  apply probe_frame in Hrun as (_ & -> & _). repeat constructor. apply HP.
Qed.

Lemma Emits_probe_all {S} (w : World) (base : string) (fs : list string) :
  (forall url, P (EvFetchHead url)) -> Emits P (@probe_all S w base fs).
Proof.
  intros HP. induction fs as [| f fs IH]; cbn [probe_all].
  - apply Emits_ret.
  - apply Emits_bind; [now apply Emits_probe | intros _; exact IH].
Qed.

Lemma Emits_preflight {S} (w : World) : Emits P (@preflight S w).
Proof.
  unfold preflight.
  destruct (negb (crossOriginIsolated w) || negb (hasSharedArrayBuffer w));
    [apply Emits_throw | apply Emits_ret].
Qed.

Lemma Emits_relay (cb : option ProgressCallback) (info : EngineInfo) :
  (forall c q, cb = Some c -> Forall P (c q)) -> Emits P (relay cb info).
Proof.
  intros Hcb. unfold relay. apply Emits_bind; [apply Emits_get | intros this].
  destruct cb as [c |]; [| apply Emits_ret].
  destruct (negb (initialized this)); [| apply Emits_ret].
  apply Emits_emit. now apply Hcb.
Qed.

Lemma Emits_relay_all (cb : option ProgressCallback) (infos : list EngineInfo) :
  (forall c q, cb = Some c -> Forall P (c q)) -> Emits P (relay_all cb infos).
Proof.
  intros Hcb. induction infos as [| info infos IH]; cbn [relay_all].
  - apply Emits_ret.
  - apply Emits_bind; [now apply Emits_relay | intros _; exact IH].
Qed.

Lemma Emits_initialize (w : World) (cb : option ProgressCallback) :
  (forall url, P (EvFetchHead url)) ->
  (forall engine, P (EvEngineNew engine)) ->
  (forall engine, P (EvEngineInitialize engine)) ->
  (forall c q, cb = Some c -> Forall P (c q)) ->
  Emits P (initialize w cb).
Proof.
  intros Hfetch Hnew Hinit Hcb. unfold initialize.
  apply Emits_bind; [apply Emits_get | intros this].
  destruct (initialized this); [apply Emits_ret |].
  destruct (initializing this); [apply Emits_pending |].
  apply Emits_bind; [apply Emits_modify | intros _].
  apply Emits_try_finally.
  apply Emits_bind; [now apply Emits_notify | intros _].
  apply Emits_bind.
  { unfold checkEnvironment.
    apply Emits_bind; [apply Emits_preflight | intros _].
    apply Emits_bind; [apply Emits_get | intros this'].
    now apply Emits_probe_all. }
  intros _. apply Emits_bind.
  { unfold engine_startup.
    apply Emits_bind; [now apply Emits_notify | intros _].
    apply Emits_bind; [apply Emits_get | intros this'].
    apply Emits_bind; [apply Emits_modify | intros _].
    apply Emits_bind; [| intros _; apply Emits_ret].
    apply Emits_emit. repeat constructor; auto. }
  intros engine. unfold engine_settle.
  apply Emits_bind; [now apply Emits_relay_all | intros _].
  destruct (snd (engineInitialize w engine)); [apply Emits_throw |].
  apply Emits_bind; [apply Emits_modify | intros _]. now apply Emits_notify.
Qed.

Lemma Emits_convert (w : World) (file : File) (outputFormat : string) :
  (forall engine data o i n, P (EvEngineConvert engine data o i n)) ->
  Emits P (convert w file outputFormat).
Proof.
  intros HP. unfold convert.
  apply Emits_bind; [apply Emits_get | intros this].
  destruct (converter this) as [engine |]; [| apply Emits_throw].
  apply Emits_try_catch; [| intros e; apply Emits_throw].
  apply Emits_bind; [apply Emits_emit; repeat constructor; apply HP | intros _].
  destruct (engineConvert _ _ _ _ _ _); [apply Emits_ret | apply Emits_throw].
Qed.

End Emitted.

(** *** [basePath] is never assigned after construction *)

Lemma same_basePath_refl this : same_basePath this this.
Proof. reflexivity. Qed.

Lemma same_basePath_trans a b c :
  same_basePath a b -> same_basePath b c -> same_basePath a c.
Proof. unfold same_basePath. congruence. Qed.

Lemma probe_all_same_state {S} (R : S -> S -> Prop) (w : World) base fs :
  (forall s, R s s) -> Preserves R (@probe_all S w base fs).
Proof.
  intros Hrefl s r s' evs Hrun.
  apply probe_all_frame in Hrun as (-> & _). apply Hrefl.
Qed.

(** One step of a proof that a method preserves a relation, by the shape
    of its code. *)
Ltac keeps_step R_refl R_trans :=
  first
    [ apply Preserves_ret; exact R_refl
    | apply Preserves_throw; exact R_refl
    | apply Preserves_pending; exact R_refl
    | apply Preserves_get; exact R_refl
    | apply Preserves_emit; exact R_refl
    | apply probe_all_same_state; exact R_refl
    | apply Preserves_bind; [exact R_trans | | intros ?]
    | apply Preserves_try_catch; [exact R_trans | | intros ?]
    | match goal with
      | |- Preserves _ (if ?b then _ else _) => destruct b
      | |- Preserves _ (match ?x with _ => _ end) => destruct x
      | |- Preserves _ (notify ?cb _) => destruct cb; cbn
      | |- Preserves _ (preflight _) => cbv beta zeta delta [preflight]
      end ].

Lemma relay_all_same_state (R : LibreOfficeConverter -> LibreOfficeConverter -> Prop)
  cb infos :
  (forall s, R s s) -> (forall a b c, R a b -> R b c -> R a c) ->
  Preserves R (relay_all cb infos).
Proof.
  intros Hrefl Htrans. induction infos as [| info infos IH]; cbn [relay_all].
  - now apply Preserves_ret.
  - apply Preserves_bind; [exact Htrans | | intros _; exact IH].
    unfold relay. repeat keeps_step Hrefl Htrans.
Qed.

Ltac keeps_basePath :=
  repeat first
    [ keeps_step same_basePath_refl same_basePath_trans
    | apply relay_all_same_state;
        [exact same_basePath_refl | exact same_basePath_trans]
    | apply Preserves_modify; intros ?; reflexivity
    | apply Preserves_try_finally;
        [exact same_basePath_trans | | intros ?; reflexivity] ].

Lemma initialize_basePath (w : World) cb :
  Preserves same_basePath (initialize w cb).
Proof. unfold initialize. keeps_basePath. Qed.

Lemma convert_basePath (w : World) file outputFormat :
  Preserves same_basePath (convert w file outputFormat).
Proof. unfold convert. keeps_basePath. Qed.

Lemma destroy_basePath (w : World) : Preserves same_basePath (destroy w).
Proof. unfold destroy. keeps_basePath. Qed.

(** *** A state the methods leave alone *)

Ltac keeps_state :=
  repeat first
    [ keeps_step (@eq_refl LibreOfficeConverter) (@eq_trans LibreOfficeConverter)
    | apply relay_all_same_state;
        [exact (@eq_refl LibreOfficeConverter)
        | exact (@eq_trans LibreOfficeConverter)] ].




Lemma convert_state w file outputFormat :
  Preserves eq (convert w file outputFormat).
Proof. unfold convert. keeps_state. Qed.

(** *** [initialize], case by case *)

Lemma initialize_ready w cb this :
  initialized this = true -> initialize w cb this = (Ok tt, this, []).
Proof. intros H. unfold initialize, bind, get. cbn. now rewrite H. Qed.

Lemma initialize_polling w cb this :
  initialized this = false -> initializing this = true ->
  initialize w cb this = (Pending, this, []).
Proof. intros H1 H2. unfold initialize, bind, get. cbn. now rewrite H1, H2. Qed.


Lemma notify_run {S} cb p (s : S) :
  notify cb p s = (Ok tt, s, callback_events cb p).
Proof. now destruct cb. Qed.

Lemma preflight_ok {S} w (s : S) :
  crossOriginIsolated w = true -> hasSharedArrayBuffer w = true ->
  preflight w s = (Ok tt, s, []).
Proof. unfold preflight. now intros -> ->. Qed.

Lemma preflight_failed {S} w (s : S) :
  crossOriginIsolated w && hasSharedArrayBuffer w = false ->
  preflight w s = (Throw (environment_error (crossOriginIsolated w)), s, []).
Proof.
  unfold preflight.
  destruct (crossOriginIsolated w), (hasSharedArrayBuffer w); now cbn.
Qed.

Lemma checkEnvironment_supported w this :
  crossOriginIsolated w = true -> hasSharedArrayBuffer w = true ->
  checkEnvironment w this = probe_all w (basePath this) files this.
Proof.
  intros Hiso Hsab. unfold checkEnvironment.
  rewrite (bind_Ok _ _ _ _ _ _ (preflight_ok w _ Hiso Hsab)).
  rewrite (bind_Ok get _ _ _ _ [] eq_refl).
  now destruct (probe_all w (basePath this) files this) as [[r s1] t1].
Qed.

Lemma checkEnvironment_unsupported w this :
  crossOriginIsolated w && hasSharedArrayBuffer w = false ->
  checkEnvironment w this =
    (Throw (environment_error (crossOriginIsolated w)), this, []).
Proof.
  intros Henv. unfold checkEnvironment.
  now rewrite (bind_Throw _ _ _ _ _ _ (preflight_failed w _ Henv)).
Qed.

(** The start of a call that finds the object neither initialized nor
    being initialized. *)
Lemma initialize_fresh w cb this :
  initialized this = false -> initializing this = false ->
  initialize w cb this =
    try_finally
      (notify cb
         {| phase := "loading"; percent := 0; message := "Checking environment..." |} ;;
       checkEnvironment w ;;
       let* engine := engine_startup cb in
       engine_settle w cb engine)%run
      (set_initializing false) (set_initializing true this).
Proof.
  intros Hinit Hing. unfold initialize.
  rewrite (bind_Ok get _ this this this [] eq_refl), Hinit, Hing.
  rewrite (bind_Ok (modify _) _ this tt _ [] eq_refl).
  destruct (try_finally _ _ _) as [[r s1] t1]. reflexivity.
Qed.

(** C6.  During [initialize], when the HEAD probe of a required file is
    answered with a status outside 200-299 (the files before it having been
    answered with a success status), [initialize] throws at once the error
    that names this file and its status; no later file is probed, no engine
    is constructed or started, and the object ends as it was before the
    call, so [initialized] is still false. *)
Theorem initialize_asset_unavailable w onProgress this before file after res :
  initialized this = false -> initializing this = false ->
  crossOriginIsolated w = true -> hasSharedArrayBuffer w = true ->
  files = before ++ file :: after ->
  (forall f, In f before ->
     exists r, fetchHead w (basePath this +:+ f) = Responds r /\ res_ok r = true) ->
  fetchHead w (basePath this +:+ file) = Responds res ->
  res_ok res = false ->
  initialize w onProgress this =
    (Throw (Error ("Required file " +:+ file +:+ " returned HTTP "
                   +:+ string_of_nat (res_status res))),
     this,
     callback_events onProgress
       {| phase := "loading"; percent := 0; message := "Checking environment..." |}
     ++ probe_events (basePath this) (before ++ [file])).
Proof.
  intros Hinit Hing Hiso Hsab Hfiles Hbefore Hfile Hbad.
  rewrite initialize_fresh by assumption. unfold try_finally.
  rewrite (bind_Ok _ _ _ _ _ _ (notify_run _ _ _)).
  assert (Hcheck : checkEnvironment w (set_initializing true this) =
            (Throw (required_file_error file (res_status res)),
             set_initializing true this,
             probe_events (basePath this) (before ++ [file]))).
  { unfold checkEnvironment.
    rewrite (bind_Ok _ _ _ _ _ _ (preflight_ok w _ Hiso Hsab)).
    rewrite (bind_Ok get _ _ _ _ [] eq_refl). cbn [basePath set_initializing].
    rewrite Hfiles.
    now rewrite (probe_all_first_failure w _ before after file res _ Hbefore Hfile Hbad). }
  rewrite (bind_Throw _ _ _ _ _ _ Hcheck).
  now rewrite set_initializing_cancel.
Qed.

Lemma initialize_asset_unavailable_witness :
  initialize (Scenarios.missing_data None) None (new_LibreOfficeConverter None) =
    (Throw (Error "Required file soffice.data returned HTTP 404"),
     new_LibreOfficeConverter None,
     [EvFetchHead "/libreoffice-wasm/soffice.wasm";
      EvFetchHead "/libreoffice-wasm/soffice.data"]).
Proof.
  apply (initialize_asset_unavailable (Scenarios.missing_data None) None
           (new_LibreOfficeConverter None) ["soffice.wasm"] "soffice.data"
           ["soffice.js"; "soffice.worker.js"; "browser.worker.global.js"]
           Scenarios.not_found);
    try reflexivity.
  intros f [<- | []]. exists Scenarios.ok_response. split; reflexivity.
Defined.

(** *** The segments of [initialize] *)

Lemma relay_run cb info this :
  relay cb info this = (Ok tt, this, relayed cb this [info]).
Proof.
  unfold relay, relayed. rewrite (bind_Ok get _ this this this [] eq_refl).
  destruct cb as [c |]; destruct (initialized this); cbn [negb flat_map];
    unfold emit, ret, callback_events; now rewrite ?app_nil_r.
Qed.

Lemma relayed_cons cb this info infos :
  relayed cb this (info :: infos) = relayed cb this [info] ++ relayed cb this infos.
Proof.
  unfold relayed. destruct (initialized this); [reflexivity |].
  cbn [flat_map]. now rewrite app_nil_r.
Qed.

Lemma relay_all_run cb infos this :
  relay_all cb infos this = (Ok tt, this, relayed cb this infos).
Proof.
  induction infos as [| info infos IH]; cbn [relay_all].
  - unfold relayed. now destruct (initialized this).
  - rewrite (bind_Ok _ _ _ _ _ _ (relay_run _ _ _)), IH.
    now rewrite (relayed_cons cb this info infos).
Qed.

Lemma engine_startup_run cb this :
  engine_startup cb this =
    (Ok (engine_options (basePath this)),
     set_converter (Some (engine_options (basePath this))) this,
     callback_events cb
       {| phase := "loading"; percent := 5; message := "Loading conversion engine..." |}
     ++ [EvEngineNew (engine_options (basePath this));
         EvEngineInitialize (engine_options (basePath this))]).
Proof.
  unfold engine_startup. rewrite (bind_Ok _ _ _ _ _ _ (notify_run _ _ _)).
  reflexivity.
Qed.

Lemma engine_settle_run w cb engine this :
  engine_settle w cb engine this =
    match snd (engineInitialize w engine) with
    | Some e => (Throw e, this, relayed cb this (fst (engineInitialize w engine)))
    | None =>
        (Ok tt, set_initialized true this,
         relayed cb this (fst (engineInitialize w engine))
         ++ callback_events cb
              {| phase := "ready"; percent := 100; message := "Conversion engine ready!" |})
    end.
Proof.
  unfold engine_settle. rewrite (bind_Ok _ _ _ _ _ _ (relay_all_run _ _ _)).
  destruct (snd (engineInitialize w engine)); cbn; [now rewrite app_nil_r |].
  now destruct cb.
Qed.

(** *** [convert], case by case *)

Lemma convert_without_engine w file outputFormat this :
  converter this = None ->
  convert w file outputFormat this =
    (Throw (Error "Converter not initialized"), this, []).
Proof. intros H. unfold convert, bind, get. cbn. now rewrite H. Qed.

Lemma convert_engine_throws w file outputFormat this engine e :
  converter this = Some engine ->
  engineConvert w engine (file_bytes file) outputFormat
    (extension (file_name file)) (file_name file) = ConvertThrows e ->
  convert w file outputFormat this =
    (Throw e, this,
     [EvEngineConvert engine (file_bytes file) outputFormat
        (extension (file_name file)) (file_name file)]).
Proof.
  intros H He. unfold convert, bind, get, try_catch, emit, throw. cbn.
  rewrite H. cbn. now rewrite He.
Qed.

Lemma convert_engine_converts w file outputFormat this engine result :
  converter this = Some engine ->
  engineConvert w engine (file_bytes file) outputFormat
    (extension (file_name file)) (file_name file) = Converts result ->
  convert w file outputFormat this =
    (Ok (new_Blob (result_data result) (result_mimeType result)),
     this,
     [EvEngineConvert engine (file_bytes file) outputFormat
        (extension (file_name file)) (file_name file)]).
Proof.
  intros H He. unfold convert, bind, get, try_catch, emit, ret. cbn.
  rewrite H. cbn. now rewrite He.
Qed.

(** A conversion that returns has asked the engine, and its blob is built
    from the engine's answer. *)
Lemma convert_Ok w file outputFormat this blob this' evs :
  convert w file outputFormat this = (Ok blob, this', evs) ->
  exists engine result,
    converter this = Some engine /\
    engineConvert w engine (file_bytes file) outputFormat
      (extension (file_name file)) (file_name file) = Converts result /\
    blob = new_Blob (result_data result) (result_mimeType result) /\
    this' = this /\
    evs = [EvEngineConvert engine (file_bytes file) outputFormat
             (extension (file_name file)) (file_name file)].
Proof.
  destruct (converter this) as [engine |] eqn:Hc.
  - destruct (engineConvert w engine (file_bytes file) outputFormat
                (extension (file_name file)) (file_name file)) as [result | e] eqn:He.
    + rewrite (convert_engine_converts _ _ _ _ _ _ Hc He).
      intros [= <- <- <-]. now exists engine, result.
    + now rewrite (convert_engine_throws _ _ _ _ _ _ Hc He).
  - now rewrite (convert_without_engine _ _ _ _ Hc).
Qed.

(** *** [convert] on an object that is not ready *)

(** The guard of [convert] is the engine reference alone. *)
Lemma convert_guard w file outputFormat this :
  (converter this = None ->
   convert w file outputFormat this =
     (Throw (Error "Converter not initialized"), this, [])) /\
  (forall engine, converter this = Some engine ->
   exists r,
     convert w file outputFormat this =
       (r, this,
        [EvEngineConvert engine (file_bytes file) outputFormat
           (extension (file_name file)) (file_name file)])).
Proof.
  split; [apply convert_without_engine |].
  intros engine Hc.
  destruct (engineConvert w engine (file_bytes file) outputFormat
              (extension (file_name file)) (file_name file)) as [result | e] eqn:He.
  - eexists. apply convert_engine_converts; eassumption.
  - eexists. apply convert_engine_throws; eassumption.
Qed.

(** C2 fails after an engine start that failed.  [initialize] throws and
    leaves the engine reference set with [initialized] false, so [isReady]
    is false; [convert] then passes its guard and calls the engine's
    [convert], and what it throws is the engine's error, not
    "Converter not initialized". *)
Theorem convert_not_ready_reaches_engine :
  exists this engine,
    initialize Scenarios.broken_engine None (new_LibreOfficeConverter None) =
      (Throw (Error "Worker failed to start"), this,
       probe_events LIBREOFFICE_PATH files
       ++ [EvEngineNew engine; EvEngineInitialize engine]) /\
    isReady this = false /\
    convert Scenarios.broken_engine Scenarios.sheet "pdf" this =
      (Throw (Error "Worker is not running"), this,
       [EvEngineConvert engine (file_bytes Scenarios.sheet) "pdf" "xlsx"
          "report.xlsx"]).
Proof.
  eexists _, _. split; [vm_compute; reflexivity |].
  split; reflexivity.
Qed.

End LifecycleFacts.

(** ** The store and the singleton *)

Module StoreFacts.

Import Js Platform Run LibreOffice Progress Logic RunFacts LifecycleFacts.
Open Scope run_scope.

Lemma getLibreOfficeConverter_existing path s ref :
  converterInstance s = Some ref ->
  getLibreOfficeConverter path s = (Ok ref, s, []).
Proof.
  intros H. unfold getLibreOfficeConverter, bind, get. cbn. now rewrite H.
Qed.

Lemma getLibreOfficeConverter_first path s :
  converterInstance s = None ->
  getLibreOfficeConverter path s =
    (Ok (length (heap s)),
     {| heap := heap s ++ [new_LibreOfficeConverter path];
        converterInstance := Some (length (heap s)) |},
     []).
Proof.
  intros H. unfold getLibreOfficeConverter, bind, get. cbn. now rewrite H.
Qed.

(** The call always returns a reference, silently. *)
Lemma getLibreOfficeConverter_returns path s :
  exists ref s1, getLibreOfficeConverter path s = (Ok ref, s1, []).
Proof.
  destruct (converterInstance s) as [ref |] eqn:H.
  - exists ref, s. now apply getLibreOfficeConverter_existing.
  - eexists _, _. now apply getLibreOfficeConverter_first.
Qed.

Lemma on_object_run {A} ref (m : M LibreOfficeConverter A) s this r this' evs :
  heap s !! ref = Some this -> m this = (r, this', evs) ->
  on_object ref m s =
    (r, {| heap := <[ref := this']> (heap s);
           converterInstance := converterInstance s |}, evs).
Proof. intros Hl Hm. unfold on_object. now rewrite Hl, Hm. Qed.

Lemma on_object_same {A} ref (m : M LibreOfficeConverter A) s this r evs :
  heap s !! ref = Some this -> m this = (r, this, evs) ->
  on_object ref m s = (r, s, evs).
Proof.
  intros Hl Hm. rewrite (on_object_run _ _ _ _ _ _ _ Hl Hm).
  rewrite list_insert_id by assumption. now destruct s.
Qed.

Lemma on_object_dangling {A} ref (m : M LibreOfficeConverter A) s :
  heap s !! ref = None -> on_object ref m s = (Pending, s, []).
Proof. intros Hl. unfold on_object. now rewrite Hl. Qed.

Lemma on_object_inv {A} ref (m : M LibreOfficeConverter A) s r s' evs :
  on_object ref m s = (r, s', evs) -> r <> Pending ->
  exists this this',
    heap s !! ref = Some this /\ m this = (r, this', evs) /\
    s' = {| heap := <[ref := this']> (heap s);
            converterInstance := converterInstance s |}.
Proof.
  unfold on_object. destruct (heap s !! ref) as [this |].
  - destruct (m this) as [[r1 this'] t1] eqn:Hm. intros [= <- <- <-] _.
    now exists this, this'.
  - intros [= <- <- <-] H. now contradiction H.
Qed.

Lemma Emits_on_object {A} P ref (m : M LibreOfficeConverter A) :
  Emits P m -> Emits P (on_object ref m).
Proof.
  intros Hm s r s' evs. unfold on_object.
  destruct (heap s !! ref) as [this |].
  - destruct (m this) as [[r1 this'] t1] eqn:E. intros [= <- <- <-].
    eapply Hm, E.
  - intros [= <- <- <-]. constructor.
Qed.

End StoreFacts.

(** ** [process] *)

Module ProcessFacts.

Import Js Platform Run LibreOffice ExcelToPdf Progress Logic.
Import RunFacts LifecycleFacts StoreFacts StringFacts.
Open Scope run_scope.

(** The course of a call on one file of a supported type, given what the
    call of [initialize] on the singleton does. *)
Lemma process_course w file s ref s1 init s2 evs1 :
  includes validExts (extension (file_name file)) = true ->
  getLibreOfficeConverter None s = (Ok ref, s1, []) ->
  on_object ref (initialize w (Some scaled)) s1 = (init, s2, evs1) ->
  process w {| input_files := [file] |} s =
    match init with
    | Ok _ =>
        if checkCancelled w DuringInit then (Ok cancelled, s2, loading :: evs1)
        else
          match on_object ref (convertToPdf w file) s2 with
          | (Ok pdfBlob, s3, evs2) =>
              if checkCancelled w DuringConvert then
                (Ok cancelled, s3, loading :: evs1 ++ converting :: evs2)
              else
                (Ok (converted pdfBlob file), s3,
                 loading :: evs1 ++ converting :: evs2 ++ [complete])
          | (Throw e, s3, evs2) =>
              (Ok (failed (message_or e "Unknown error")), s3,
               loading :: evs1 ++ converting :: evs2)
          | (Pending, s3, evs2) =>
              (Pending, s3, loading :: evs1 ++ converting :: evs2)
          end
    | Throw e =>
        (Ok (failed (message_or e "Unknown error")), s2, loading :: evs1)
    | Pending => (Pending, s2, loading :: evs1)
    end.
Proof.
  intros Hvalid Hget Hinit.
  unfold process. cbn [input_files]. rewrite Hvalid. cbn [negb].
  unfold try_catch, bind, updateProgress, emit, ret. rewrite Hget, Hinit.
  destruct init as [[] | e |]; cbn; [| rewrite ?app_nil_r; reflexivity ..].
  destruct (checkCancelled w DuringInit); cbn;
    [rewrite ?app_nil_r; reflexivity |].
  destruct (on_object ref (convertToPdf w file) s2) as [[[pdfBlob | e |] s3] evs2];
    cbn; [| rewrite ?app_nil_r; reflexivity ..].
  destruct (checkCancelled w DuringConvert); cbn; rewrite ?app_nil_r;
    reflexivity.
Qed.

(** *** Validation *)

Lemma process_unsupported w file s :
  includes validExts (extension (file_name file)) = false ->
  process w {| input_files := [file] |} s = (Ok (invalid_type file), s, []).
Proof.
  intros Hext. unfold process. cbn [input_files]. now rewrite Hext.
Qed.

(** C7.  When the list of files does not have exactly one element,
    [process] returns the failure with code [INVALID_OPTIONS] whose detail
    names the number of files received; the store is untouched and no
    event occurs: the singleton is not looked up, and neither [initialize]
    nor [convert] is called. *)
Theorem process_rejects_file_count w input s :
  length (input_files input) <> 1 ->
  process w input s =
    (Ok (Failure INVALID_OPTIONS "Please provide exactly one Excel spreadsheet."
           (Some ("Received " +:+ string_of_nat (length (input_files input))
                  +:+ " file(s)."))),
     s, []).
Proof.
  destruct input as [files]. cbn [input_files]. intros Hlen.
  destruct files as [| f [| g rest]]; [reflexivity | | reflexivity].
  now contradiction Hlen.
Qed.

Lemma process_rejects_file_count_witness :
  process Scenarios.working {| input_files := [] |} empty_store =
    (Ok (Failure INVALID_OPTIONS "Please provide exactly one Excel spreadsheet."
           (Some "Received 0 file(s).")),
     empty_store, []).
Proof.
  apply (process_rejects_file_count Scenarios.working {| input_files := [] |}
           empty_store).
  cbn. lia.
Defined.

(** C8, as far as it holds.  On a single file for which the part of the
    name after its last dot, or the whole name when it has no dot, is in
    lower case not one of xlsx, xls, ods, csv (this is the extension as
    the code computes it, [extension_last_piece]), [process] returns the
    failure with code
    [FILE_TYPE_INVALID] whose detail names the declared type of the file,
    or its name when no type is declared; the store is untouched and no
    event occurs. *)
Theorem process_rejects_file_type w file s :
  includes ["xlsx"; "xls"; "ods"; "csv"]
    (toLowerCase (Specification.last_piece (file_name file))) = false ->
  process w {| input_files := [file] |} s =
    (Ok (Failure FILE_TYPE_INVALID
           "Invalid file type. Please upload .xlsx, .xls, .ods, or .csv."
           (Some ("Received: " +:+ or_else (file_type file) (file_name file)))),
     s, []).
Proof.
  intros Hext. unfold process. cbn [input_files].
  rewrite <- extension_last_piece in Hext.
  fold validExts in Hext. rewrite Hext. cbn [negb].
  unfold createErrorOutput, ret. reflexivity.
Qed.

Lemma process_rejects_file_type_witness :
  process Scenarios.working {| input_files := [Scenarios.notes] |} empty_store =
    (Ok (Failure FILE_TYPE_INVALID
           "Invalid file type. Please upload .xlsx, .xls, .ods, or .csv."
           (Some "Received: text/plain")),
     empty_store, []).
Proof.
  apply (process_rejects_file_type Scenarios.working Scenarios.notes empty_store).
  reflexivity.
Defined.

(** C8 fails on a name without a dot.  The name [CSV] has no part after a
    last dot, so its extension in the words of the specification is empty
    and not one of the four.  The code takes the whole name as the last
    piece, finds csv in its list, and goes on: the engine is started and
    is asked to convert the file, and the call succeeds. *)
Lemma process_accepts_name_without_dot :
  Specification.after_last_dot (file_name Scenarios.bare) = None /\
  includes ["xlsx"; "xls"; "ods"; "csv"]
    (Specification.extension_after_dot (file_name Scenarios.bare)) = false /\
  exists artifact metadata s' evs engine,
    process Scenarios.working {| input_files := [Scenarios.bare] |} empty_store =
      (Ok (Success artifact "CSV.pdf" metadata), s', evs) /\
    startups evs = 1 /\
    In (EvEngineConvert engine (file_bytes Scenarios.bare) "pdf" "csv" "CSV") evs.
Proof.
  split; [reflexivity | split; [reflexivity |]].
  eexists _, _, _, _, _. split; [vm_compute; reflexivity |].
  split; [reflexivity |].
  cbn. repeat first [left; reflexivity | right].
Qed.

(** *** The artifact of a successful call *)

(** A call that succeeds went through every step. *)
Lemma process_success w file s artifact filename metadata s' evs :
  process w {| input_files := [file] |} s =
    (Ok (Success artifact filename metadata), s', evs) ->
  exists ref s1 s2 evs1 evs2,
    includes validExts (extension (file_name file)) = true /\
    getLibreOfficeConverter None s = (Ok ref, s1, []) /\
    on_object ref (initialize w (Some scaled)) s1 = (Ok tt, s2, evs1) /\
    on_object ref (convertToPdf w file) s2 = (Ok artifact, s', evs2) /\
    filename = strip_extension (file_name file) +:+ ".pdf" /\
    metadata = {| format := "pdf" |} /\
    evs = loading :: evs1 ++ converting :: evs2 ++ [complete].
Proof.
  intros Hrun.
  destruct (includes validExts (extension (file_name file))) eqn:Hvalid;
    [| now rewrite process_unsupported in Hrun].
  destruct (getLibreOfficeConverter_returns None s) as (ref & s1 & Hget).
  destruct (on_object ref (initialize w (Some scaled)) s1)
    as [[init s2] evs1] eqn:Hinit.
  rewrite (process_course _ _ _ _ _ _ _ _ Hvalid Hget Hinit) in Hrun.
  destruct init as [[] | e |]; try discriminate.
  destruct (checkCancelled w DuringInit); try discriminate.
  destruct (on_object ref (convertToPdf w file) s2)
    as [[[pdfBlob | e |] s3] evs2] eqn:Hconv; try discriminate.
  destruct (checkCancelled w DuringConvert); try discriminate.
  injection Hrun as <- <- <- <- <-.
  now exists ref, s1, s2, evs1, evs2.
Qed.

(** C9, as far as it holds.  When [process] succeeds on a file named
    [base.ext] with [ext] one of xlsx, xls, ods, csv in any letter case,
    the file name of the artifact is [base.pdf], the declared format is
    pdf, and the artifact is the blob constructed from the answer of the
    engine's [convert]: its content is the engine's data, and its type is
    the MIME type the engine declared as the [Blob] constructor stores it,
    in ASCII lower case, or empty when the declared type has a character
    outside U+0020-U+007E. *)
Theorem process_artifact w base ext file s artifact filename metadata s' evs :
  file_name file = base +:+ "." +:+ ext ->
  In (toLowerCase ext) ["xlsx"; "xls"; "ods"; "csv"] ->
  process w {| input_files := [file] |} s =
    (Ok (Success artifact filename metadata), s', evs) ->
  filename = base +:+ ".pdf" /\
  format metadata = "pdf" /\
  exists engine result,
    In (EvEngineConvert engine (file_bytes file) "pdf"
          (extension (file_name file)) (file_name file)) evs /\
    engineConvert w engine (file_bytes file) "pdf"
      (extension (file_name file)) (file_name file) = Converts result /\
    blob_type artifact = Blob_type (result_mimeType result) /\
    blob_data artifact = result_data result.
Proof.
  intros Hname Hext Hrun.
  apply process_success in Hrun
    as (ref & s1 & s2 & evs1 & evs2 & _ & _ & _ & Hconv & -> & -> & ->).
  apply on_object_inv in Hconv as (this & this' & _ & Hconv & _);
    [| discriminate].
  apply convert_Ok in Hconv as (engine & result & _ & Hengine & -> & _ & ->).
  split; [| split; [reflexivity |]].
  - rewrite Hname. now rewrite strip_extension_base.
  - exists engine, result. repeat split; try assumption.
    right. apply in_or_app. right. right. now left.
Qed.

Lemma process_artifact_witness :
  exists artifact filename metadata s' evs,
    process Scenarios.working {| input_files := [Scenarios.sheet] |} empty_store =
      (Ok (Success artifact filename metadata), s', evs) /\
    filename = "report.pdf" /\ format metadata = "pdf" /\
    blob_type artifact = "application/pdf".
Proof.
  eexists _, _, _, _, _. split; [vm_compute; reflexivity |].
  destruct (process_artifact Scenarios.working "report" "xlsx" Scenarios.sheet
              empty_store _ _ _ _ _ eq_refl (or_introl eq_refl) eq_refl)
    as (Hname & Hformat & engine & result & _ & Hengine & Htype & _).
  repeat split; try assumption.
Defined.

(** C9 fails on the type.  An engine that declares its result as
    [Application/PDF] gives an artifact whose type is [application/pdf]:
    the type of the blob is not the string the engine declared. *)
Lemma process_artifact_type_lowercased :
  exists artifact filename metadata s' evs engine result,
    process Scenarios.capitals_engine {| input_files := [Scenarios.sheet] |}
      empty_store = (Ok (Success artifact filename metadata), s', evs) /\
    engineConvert Scenarios.capitals_engine engine (file_bytes Scenarios.sheet)
      "pdf" "xlsx" "report.xlsx" = Converts result /\
    In (EvEngineConvert engine (file_bytes Scenarios.sheet) "pdf" "xlsx"
          "report.xlsx") evs /\
    result_mimeType result = "Application/PDF" /\
    blob_type artifact = "application/pdf" /\
    blob_type artifact <> result_mimeType result.
Proof.
  eexists _, _, _, _, _, (engine_options LIBREOFFICE_PATH), _.
  split; [vm_compute; reflexivity |].
  split; [reflexivity |].
  split; [cbn; repeat first [left; reflexivity | right] |].
  split; [reflexivity |]. split; [reflexivity | discriminate].
Qed.

(** *** Progress *)

Lemma percents_app (a b : list Event) :
  percents (a ++ b) = percents a ++ percents b.
Proof.
  induction a as [| e a IH]; [reflexivity |].
  destruct e; cbn; now rewrite ?IH.
Qed.

Lemma percents_below (bound : Q) (evs : list Event) :
  Forall (progress_below bound) evs ->
  Forall (fun p => (p <= bound)%Q) (percents evs).
Proof.
  induction 1 as [| e evs He _ IH]; [constructor |].
  destruct e; cbn; try exact IH. now constructor.
Qed.

(** Whatever [initialize] reports reaches the caller of [process] at no
    more than 80 percent. *)
Lemma initialize_scaled_below w :
  Emits (progress_below 80) (initialize w (Some scaled)).
Proof.
  apply Emits_initialize; try (intros; exact I).
  intros c q [= <-]. repeat constructor. cbn. apply Q.le_min_r.
Qed.

(** C1 fails on a first call.  With an engine that still has to be
    initialized the call succeeds, and the caller receives 5 percent from
    [process] and then 0 percent, the scaled first message of
    [initialize]. *)
Lemma process_progress_decreases :
  exists artifact filename metadata s' evs,
    process Scenarios.working {| input_files := [Scenarios.sheet] |}
      empty_store = (Ok (Success artifact filename metadata), s', evs) /\
    firstn 2 (percents evs) = [5%Q; (0 # 5)%Q] /\
    ~ nondecreasing (percents evs).
Proof.
  eexists _, _, _, _, _. split; [vm_compute; reflexivity |].
  split; [reflexivity |].
  intros [H _]. vm_compute in H. now apply H.
Qed.

(** *** Cancellation *)

(** C3, as far as it holds.  [process] reads the cancellation flag when
    [initialize] has returned, before the conversion, and again when the
    conversion has returned.  If the first check finds the flag set,
    [process] returns the cancelled result at once and the engine's
    [convert] is not called; if the second check finds it set, [process]
    returns the cancelled result instead of the artifact. *)
Theorem process_cancellation w file s ref s1 s2 evs1 :
  includes validExts (extension (file_name file)) = true ->
  getLibreOfficeConverter None s = (Ok ref, s1, []) ->
  on_object ref (initialize w (Some scaled)) s1 = (Ok tt, s2, evs1) ->
  (checkCancelled w DuringInit = true ->
   process w {| input_files := [file] |} s =
     (Ok (Failure PROCESSING_CANCELLED "Processing was cancelled." None),
      s2, loading :: evs1) /\
   Forall (fun e => is_engine_convert e = false) (loading :: evs1)) /\
  (checkCancelled w DuringInit = false ->
   checkCancelled w DuringConvert = true ->
   forall pdfBlob s3 evs2,
     on_object ref (convertToPdf w file) s2 = (Ok pdfBlob, s3, evs2) ->
     process w {| input_files := [file] |} s =
       (Ok (Failure PROCESSING_CANCELLED "Processing was cancelled." None),
        s3, loading :: evs1 ++ converting :: evs2)).
Proof.
  intros Hvalid Hget Hinit.
  rewrite (process_course _ _ _ _ _ _ _ _ Hvalid Hget Hinit). split.
  - intros ->. split; [reflexivity |].
    constructor; [reflexivity |].
    refine (Emits_on_object _ ref _ _ _ _ _ _ Hinit).
    apply Emits_initialize; try reflexivity.
    intros c q [= <-]. now repeat constructor.
  - intros -> -> pdfBlob s3 evs2 ->. reflexivity.
Qed.

Lemma process_cancellation_witness :
  exists s' evs,
    process (Scenarios.cancelling DuringInit)
      {| input_files := [Scenarios.sheet] |} empty_store =
      (Ok (Failure PROCESSING_CANCELLED "Processing was cancelled." None),
       s', evs) /\
    Forall (fun e => is_engine_convert e = false) evs.
Proof.
  eexists _, _.
  refine (proj1 (process_cancellation (Scenarios.cancelling DuringInit)
                   Scenarios.sheet empty_store _ _ _ _ eq_refl eq_refl _)
            eq_refl).
  vm_compute. reflexivity.
Defined.

(** C3 fails before initialization: there is no check there.  With the
    flag set inside the first progress callback, a first call still probes
    the five files and starts the engine before it returns the cancelled
    result; and when a file is missing it returns the failure of
    [initialize], not the cancelled result. *)
Lemma process_no_check_before_initialize :
  (exists s' evs,
     checkCancelled (Scenarios.cancelling BeforeInit) BeforeInit = true /\
     process (Scenarios.cancelling BeforeInit)
       {| input_files := [Scenarios.sheet] |} empty_store =
       (Ok (Failure PROCESSING_CANCELLED "Processing was cancelled." None),
        s', evs) /\
     length (fetched evs) = 5 /\ startups evs = 1) /\
  (exists s' evs,
     checkCancelled (Scenarios.missing_data (Some BeforeInit)) BeforeInit = true /\
     process (Scenarios.missing_data (Some BeforeInit))
       {| input_files := [Scenarios.sheet] |} empty_store =
       (Ok (Failure PROCESSING_FAILED "Failed to convert Excel to PDF."
              (Some "Required file soffice.data returned HTTP 404")),
        s', evs)).
Proof.
  split; eexists _, _; (split; [reflexivity |]).
  - split; [vm_compute; reflexivity |]. split; reflexivity.
  - vm_compute. reflexivity.
Qed.

(** *** A conversion that fails *)

(** C5.  When the engine's [convert] throws an error during a call of
    [process] that got as far as the conversion, [convert] rethrows it and
    leaves the object as it was, and [process] returns the failure with
    code [PROCESSING_FAILED] whose detail is the message of that error.
    The store [process] leaves is the one the conversion found: in it the
    handle has the [initialized] flag and the engine reference it had
    before the conversion, so it is ready exactly if it was, and an engine
    that was ready needs no new initialization. *)
Theorem process_conversion_failure
  w file s ref s1 s2 evs1 this engine name message :
  includes validExts (extension (file_name file)) = true ->
  getLibreOfficeConverter None s = (Ok ref, s1, []) ->
  on_object ref (initialize w (Some scaled)) s1 = (Ok tt, s2, evs1) ->
  checkCancelled w DuringInit = false ->
  heap s2 !! ref = Some this ->
  converter this = Some engine ->
  engineConvert w engine (file_bytes file) "pdf"
    (extension (file_name file)) (file_name file) =
    ConvertThrows (JsError name message) ->
  convertToPdf w file this =
    (Throw (JsError name message), this,
     [EvEngineConvert engine (file_bytes file) "pdf"
        (extension (file_name file)) (file_name file)]) /\
  process w {| input_files := [file] |} s =
    (Ok (Failure PROCESSING_FAILED "Failed to convert Excel to PDF."
           (Some message)),
     s2,
     loading :: evs1 ++
       [converting;
        EvEngineConvert engine (file_bytes file) "pdf"
          (extension (file_name file)) (file_name file)]) /\
  (forall s' evs out,
     process w {| input_files := [file] |} s = (Ok out, s', evs) ->
     exists after,
       heap s' !! ref = Some after /\
       initialized after = initialized this /\
       converter after = converter this /\
       isReady after = isReady this /\
       (isReady this = true ->
        forall w' cb, initialize w' cb after = (Ok tt, after, []))).
Proof.
  intros Hvalid Hget Hinit Hflag Hthis Hengine Hthrows.
  pose proof (convert_engine_throws w file "pdf" this engine _ Hengine Hthrows)
    as Hconv.
  change (convert w file "pdf") with (convertToPdf w file) in Hconv.
  assert (Hprocess :
    process w {| input_files := [file] |} s =
      (Ok (Failure PROCESSING_FAILED "Failed to convert Excel to PDF."
             (Some message)),
       s2,
       loading :: evs1 ++
         [converting;
          EvEngineConvert engine (file_bytes file) "pdf"
            (extension (file_name file)) (file_name file)])).
  { rewrite (process_course _ _ _ _ _ _ _ _ Hvalid Hget Hinit), Hflag.
    now rewrite (on_object_same _ _ _ _ _ _ Hthis Hconv). }
  split; [exact Hconv | split; [exact Hprocess |]].
  intros s' evs out Hrun. rewrite Hprocess in Hrun.
  injection Hrun as _ <- _. exists this.
  repeat split; try assumption.
  intros Hready w' cb. apply initialize_ready.
  unfold isReady in Hready. now apply andb_true_iff in Hready as (Hi & _).
Qed.

Lemma process_conversion_failure_witness :
  exists s' evs,
    process Scenarios.rejecting_engine {| input_files := [Scenarios.sheet] |}
      Scenarios.warm =
      (Ok (Failure PROCESSING_FAILED "Failed to convert Excel to PDF."
             (Some "Document could not be loaded")),
       s', evs) /\
    s' = Scenarios.warm /\
    exists after, heap s' !! 0 = Some after /\ isReady after = true.
Proof.
  eexists _, _.
  destruct (process_conversion_failure Scenarios.rejecting_engine
              Scenarios.sheet Scenarios.warm 0 Scenarios.warm Scenarios.warm []
              _ _ "Error" "Document could not be loaded"
              eq_refl eq_refl eq_refl eq_refl eq_refl eq_refl eq_refl)
    as (_ & Hprocess & Hafter).
  split; [exact Hprocess | split; [reflexivity |]].
  destruct (Hafter _ _ _ Hprocess) as (after & Hlookup & _ & _ & Hready & _).
  exists after. split; [exact Hlookup |].
  rewrite Hready. reflexivity.
Defined.

(** What is thrown need not be an error object; then the detail is the
    fixed text. *)
Lemma process_conversion_failure_other w file s ref s1 s2 evs1 this engine rendering :
  includes validExts (extension (file_name file)) = true ->
  getLibreOfficeConverter None s = (Ok ref, s1, []) ->
  on_object ref (initialize w (Some scaled)) s1 = (Ok tt, s2, evs1) ->
  checkCancelled w DuringInit = false ->
  heap s2 !! ref = Some this ->
  converter this = Some engine ->
  engineConvert w engine (file_bytes file) "pdf"
    (extension (file_name file)) (file_name file) =
    ConvertThrows (JsOther rendering) ->
  process w {| input_files := [file] |} s =
    (Ok (Failure PROCESSING_FAILED "Failed to convert Excel to PDF."
           (Some "Unknown error")),
     s2,
     loading :: evs1 ++
       [converting;
        EvEngineConvert engine (file_bytes file) "pdf"
          (extension (file_name file)) (file_name file)]).
Proof.
  intros Hvalid Hget Hinit Hflag Hthis Hengine Hthrows.
  pose proof (convert_engine_throws w file "pdf" this engine _ Hengine Hthrows)
    as Hconv.
  change (convert w file "pdf") with (convertToPdf w file) in Hconv.
  rewrite (process_course _ _ _ _ _ _ _ _ Hvalid Hget Hinit), Hflag.
  now rewrite (on_object_same _ _ _ _ _ _ Hthis Hconv).
Qed.

End ProcessFacts.

(** ** The singleton *)

Module SingletonFacts.

Import Js Platform Run LibreOffice ExcelToPdf Client Logic.
Import RunFacts LifecycleFacts StoreFacts.
Open Scope run_scope.

Section Pinned.

Context (ref : nat) (path : string).

Lemma stays_pinned_refl s : stays_pinned ref path s s.
Proof. now intros H. Qed.

Lemma stays_pinned_trans s1 s2 s3 :
  stays_pinned ref path s1 s2 -> stays_pinned ref path s2 s3 ->
  stays_pinned ref path s1 s3.
Proof. unfold stays_pinned. auto. Qed.

(** A method call cannot replace the singleton or change its base path. *)
Lemma on_object_pinned {A} r (m : M LibreOfficeConverter A) :
  Preserves same_basePath m ->
  Preserves (stays_pinned ref path) (on_object r m).
Proof.
  intros Hm s res s' evs Hrun (Hci & this & Hl & Hb).
  unfold on_object in Hrun.
  destruct (heap s !! r) as [that |] eqn:Hr;
    [| injection Hrun as <- <- <-; split; eauto].
  destruct (m that) as [[res1 that'] t1] eqn:Em.
  injection Hrun as <- <- <-. split; [exact Hci |]. cbn [heap].
  destruct (decide (r = ref)) as [-> | Hne].
  - exists that'. split.
    + apply list_lookup_insert_eq. now apply lookup_lt_Some in Hl.
    + rewrite (Hm _ _ _ _ Em). congruence.
  - exists this. split; [| exact Hb].
    now rewrite list_lookup_insert_ne.
Qed.

(** Constructing another object does not move the singleton. *)
Lemma allocate_pinned p : Preserves (stays_pinned ref path) (allocate p).
Proof.
  intros s res s' evs [= <- <- <-] (Hci & this & Hl & Hb).
  split; [exact Hci |]. exists this. split; [| exact Hb].
  cbn [heap]. now apply lookup_app_l_Some.
Qed.

(** Asking for the singleton again changes nothing. *)
Lemma getLibreOfficeConverter_pinned p :
  Preserves (stays_pinned ref path) (getLibreOfficeConverter p).
Proof.
  intros s res s' evs Hrun Hpin. pose proof Hpin as (Hci & _).
  rewrite (getLibreOfficeConverter_existing _ _ _ Hci) in Hrun.
  now injection Hrun as <- <- <-.
Qed.

Ltac keeps_pinned :=
  repeat first
    [ apply getLibreOfficeConverter_pinned
    | apply on_object_pinned;
        first [apply initialize_basePath | apply convert_basePath
              | apply destroy_basePath]
    | keeps_step stays_pinned_refl stays_pinned_trans ].

Lemma process_pinned w input :
  Preserves (stays_pinned ref path) (process w input).
Proof.
  unfold process. destruct (input_files input) as [| file [| g rest]];
    keeps_pinned.
Qed.

Lemma perform_pinned a : Preserves (stays_pinned ref path) (perform a).
Proof.
  destruct a; cbn [perform]; keeps_pinned;
    first [apply allocate_pinned | apply process_pinned].
Qed.

Lemma perform_all_pinned program s :
  pinned ref path s -> pinned ref path (perform_all program s).
Proof.
  revert s. induction program as [| a program IH]; intros s Hpin;
    [exact Hpin |].
  cbn [perform_all]. apply IH.
  destruct (perform a s) as [[res s1] evs] eqn:Hrun.
  exact (perform_pinned a _ _ _ _ Hrun Hpin).
Qed.

End Pinned.

(** C10.  The first call of [getLibreOfficeConverter] (the module variable
    still [null]) constructs the shared object with the base path it is
    given, or with [/libreoffice-wasm/] when it is given none (or the empty
    string).  After any further use of the module (more calls with other
    base paths, other objects, [initialize], [convert], [destroy],
    [process]) a call with any argument returns that same object, changes
    nothing, and the object still has the base path of the first call. *)
Theorem getLibreOfficeConverter_singleton first s0 program later :
  converterInstance s0 = None ->
  exists ref s1,
    getLibreOfficeConverter first s0 = (Ok ref, s1, []) /\
    getLibreOfficeConverter later (perform_all program s1) =
      (Ok ref, perform_all program s1, []) /\
    exists this,
      heap (perform_all program s1) !! ref = Some this /\
      basePath this = or_else (default EmptyString first) "/libreoffice-wasm/".
Proof.
  intros Hnull. eexists _, _.
  split; [now apply getLibreOfficeConverter_first |].
  set (ref := length (heap s0)).
  set (s1 := {| heap := _; converterInstance := _ |}).
  assert (Hpin : pinned ref (or_else (default EmptyString first) LIBREOFFICE_PATH) s1).
  { split; [reflexivity |]. exists (new_LibreOfficeConverter first).
    split; [| reflexivity]. subst s1 ref. cbn [heap].
    now rewrite lookup_app_r, Nat.sub_diag by lia. }
  apply (perform_all_pinned _ _ program) in Hpin as (Hci & this & Hl & Hb).
  split; [now apply getLibreOfficeConverter_existing |].
  now exists this.
Qed.

Lemma getLibreOfficeConverter_singleton_witness :
  exists ref s1,
    getLibreOfficeConverter (Some "/assets/lo/") empty_store = (Ok ref, s1, []) /\
    getLibreOfficeConverter (Some "/elsewhere/")
      (perform_all
         [Process Scenarios.working {| input_files := [Scenarios.sheet] |};
          NewConverter None; GetConverter None; Destroy 0 Scenarios.working] s1) =
      (Ok ref,
       perform_all
         [Process Scenarios.working {| input_files := [Scenarios.sheet] |};
          NewConverter None; GetConverter None; Destroy 0 Scenarios.working] s1,
       []) /\
    exists this,
      heap (perform_all
              [Process Scenarios.working {| input_files := [Scenarios.sheet] |};
               NewConverter None; GetConverter None; Destroy 0 Scenarios.working]
              s1) !! ref = Some this /\
      basePath this = "/assets/lo/".
Proof.
  exact (getLibreOfficeConverter_singleton (Some "/assets/lo/") empty_store
           [Process Scenarios.working {| input_files := [Scenarios.sheet] |};
            NewConverter None; GetConverter None; Destroy 0 Scenarios.working]
           (Some "/elsewhere/") eq_refl).
Defined.

End SingletonFacts.

(** ** Several callers *)

Module ConcurrentFacts.

Import Js Platform Run LibreOffice Progress Concurrent Logic.
Import RunFacts ProbeFacts LifecycleFacts.
Open Scope run_scope.

Lemma startups_app (a b : list Event) :
  startups (a ++ b) = startups a + startups b.
Proof. unfold startups. now rewrite List.filter_app, length_app. Qed.

(** *** Any number of callers: at most one runs the sequence *)

Lemma in_flight_count_insert (ts : list Task) (i : nat) (t t' : Task) :
  ts !! i = Some t ->
  in_flight_count (<[i := t']> ts) + (if in_flight t then 1 else 0) =
  in_flight_count ts + (if in_flight t' then 1 else 0).
Proof.
  revert i. induction ts as [| u ts IH]; intros i Hl; [discriminate |].
  destruct i as [| i]; simpl in Hl |- *.
  - injection Hl as ->. lia.
  - specialize (IH i Hl). lia.
Qed.

Section Exclusive.

Context (w : World) (onProgress : nat -> option ProgressCallback).

Lemma step_exclusive i sys :
  exclusive sys -> exclusive (step w onProgress i sys).
Proof.
  destruct sys as [this ts l]. unfold exclusive, step. cbn [tasks handle log].
  intros Hinv. destruct (ts !! i) as [t |] eqn:Hl; [| exact Hinv].
  destruct (advance w onProgress i t this) as [[t' this'] evs] eqn:Hadv.
  cbn [tasks handle].
  pose proof (in_flight_count_insert ts i t t' Hl) as Hcount.
  destruct t as [| | e | [| file rest] | engine | outcome |]; cbn [advance] in Hadv.
  - (* the call itself *)
    destruct (initialized this); [injection Hadv as <- <- <-; cbn in *; lia |].
    destruct (initializing this) eqn:Hing;
      [injection Hadv as <- <- <-; cbn in *; rewrite Hing; lia |].
    unfold checking in Hadv.
    rewrite (bind_Ok (modify _) _ this tt _ [] eq_refl) in Hadv.
    rewrite (bind_Ok _ _ _ _ _ _ (notify_run _ _ _)) in Hadv.
    destruct (crossOriginIsolated w && hasSharedArrayBuffer w) eqn:Henv.
    + apply andb_true_iff in Henv as (Hiso & Hsab).
      rewrite (preflight_ok w _ Hiso Hsab) in Hadv.
      injection Hadv as <- <- <-. cbn in *. lia.
    + rewrite (preflight_failed w _ Henv) in Hadv.
      injection Hadv as <- <- <-. cbn in *. lia.
  - (* a poll *)
    destruct (initializing this) eqn:Hing; injection Hadv as <- <- <-;
      cbn in *; rewrite Hing; lia.
  - (* the rejection of [checkEnvironment] is delivered *)
    injection Hadv as <- <- <-. cbn in *. destruct (initializing this); lia.
  - (* the engine is constructed and started *)
    unfold trying in Hadv. rewrite engine_startup_run in Hadv.
    injection Hadv as <- <- <-. cbn in *. lia.
  - (* a probe is answered *)
    unfold checking in Hadv.
    destruct (probe w (basePath this) file this) as [[r this1] evs1] eqn:Hp.
    apply probe_frame in Hp as (-> & _ & _).
    destruct r; injection Hadv as <- <- <-; cbn in *; lia.
  - (* the engine has started or failed *)
    unfold trying in Hadv. rewrite engine_settle_run in Hadv.
    destruct (snd (engineInitialize w engine));
      injection Hadv as <- <- <-; cbn in *; destruct (initializing this); lia.
  - injection Hadv as <- <- <-. cbn in *. lia.
  - injection Hadv as <- <- <-. cbn in *. lia.
Qed.

(** However [n] callers are scheduled, never two of them run the
    initialization sequence at the same time. *)
Lemma run_exclusive this n schedule :
  initializing this = false ->
  exclusive (run w onProgress schedule (initial this n)).
Proof.
  intros Hing.
  assert (Hstart : exclusive (initial this n)).
  { unfold exclusive, initial. cbn [tasks handle]. rewrite Hing.
    induction n as [| n IH]; [reflexivity | exact IH]. }
  revert Hstart. generalize (initial this n) as sys.
  induction schedule as [| i schedule IH]; intros sys Hinv; [exact Hinv |].
  cbn [run fold_left]. apply IH. now apply step_exclusive.
Qed.

End Exclusive.

Section Quiet.

Context (w : World) (onProgress : nat -> option ProgressCallback).
Hypothesis Hquiet : quiet onProgress.

Lemma startups_callback i p : startups (callback_events (onProgress i) p) = 0.
Proof.
  unfold callback_events. destruct (onProgress i) as [cb |] eqn:Hcb;
    [now apply (Hquiet i) | reflexivity].
Qed.

Lemma startups_relayed i this infos :
  startups (relayed (onProgress i) this infos) = 0.
Proof.
  unfold relayed. destruct (initialized this); [reflexivity |].
  induction infos as [| info infos IH]; [reflexivity |].
  cbn [flat_map]. now rewrite startups_app, startups_callback, IH.
Qed.

(** A step of either caller keeps the invariant. *)
Lemma step_shared i sys :
  shared_invariant sys -> shared_invariant (step w onProgress i sys).
Proof.
  destruct sys as [this ts l].
  intros (first & second & Hts & Hsecond & Hcount & Hfirst).
  cbn [tasks handle log] in *. subst ts. unfold step. cbn [tasks handle log].
  destruct i as [| [| i]]; cbn [lookup list_lookup]; cycle 2.
  { (* nobody *) exists first, second. auto. }
  - (* the first caller *)
    destruct first as [| | e | [| file rest] | engine | outcome |];
      try contradiction; cbn [advance].
    + (* its [checkEnvironment] has rejected *)
      destruct Hfirst as (Hing & Hzero).
      exists (Settled (Some e)), second. cbn. rewrite app_nil_r.
      repeat split; try easy.
      destruct Hsecond as [-> | (_ & o & [=])]. now left.
    + (* all files probed: the engine is constructed and started *)
      destruct Hfirst as (Hing & Hzero).
      unfold trying. rewrite engine_startup_run.
      eexists (Starting _), second. cbn [tasks handle log insert list_insert].
      rewrite !startups_app, startups_callback, Hzero.
      repeat split; try easy; try (cbn; lia).
      destruct Hsecond as [-> | (_ & o & [=])]. now left.
    + (* one more probe *)
      destruct Hfirst as (Hing & Hzero).
      unfold checking.
      destruct (probe w (basePath this) file this) as [[r this'] evs] eqn:Hp.
      apply probe_frame in Hp as (-> & -> & Hr).
      assert (Hsecond' : second = Polling)
        by (destruct Hsecond as [-> | (_ & o & [=])]; reflexivity).
      destruct r as [[] | e |]; [| | congruence];
        eexists _, second; cbn [tasks handle log insert list_insert];
        rewrite startups_app, Hzero; repeat split; auto.
    + (* the engine has started or failed *)
      destruct Hfirst as (Hing & Hconv).
      unfold trying. rewrite engine_settle_run.
      assert (Hsecond' : second = Polling)
        by (destruct Hsecond as [-> | (_ & o & [=])]; reflexivity).
      destruct (snd (engineInitialize w engine)) as [e |];
        eexists _, second; cbn [tasks handle log insert list_insert];
        rewrite ?startups_app, ?startups_relayed, ?startups_callback, ?Nat.add_0_r;
        repeat split; auto; try discriminate.
      intros _. unfold isReady. cbn. now rewrite Hconv.
    + (* it has settled *)
      exists (Settled outcome), second. cbn. rewrite app_nil_r. auto.
    + exists Never, second. cbn. rewrite app_nil_r. auto.
  - (* the second caller *)
    destruct Hsecond as [-> | (-> & outcome & ->)]; cbn [advance].
    + destruct (initializing this) eqn:Hing.
      * exists first, Polling. cbn [tasks handle log insert list_insert].
        rewrite app_nil_r, Hing. auto.
      * exists first, (Settled None). cbn [tasks handle log insert list_insert].
        rewrite app_nil_r, Hing. repeat split; auto.
        right. split; [reflexivity |].
        destruct first; try contradiction; try discriminate;
          try (destruct Hfirst; congruence).
        eauto.
    + exists (Settled outcome), (Settled None). cbn. rewrite app_nil_r.
      repeat split; eauto; apply Hfirst.
Qed.

Lemma run_shared schedule sys :
  shared_invariant sys -> shared_invariant (run w onProgress schedule sys).
Proof.
  revert sys. induction schedule as [| i schedule IH]; intros sys Hinv;
    [exact Hinv |].
  cbn [run fold_left]. apply IH. now apply step_shared.
Qed.

(** *** One caller alone: the segments add up to [initialize] *)

Lemma step_alone t this l :
  step w onProgress 0 {| handle := this; tasks := [t]; log := l |} =
    (let '(t', this', evs) := advance w onProgress 0 t this in
     {| handle := this'; tasks := [t']; log := l ++ evs |}).
Proof.
  unfold step. cbn [tasks handle log lookup list_lookup].
  now destruct (advance w onProgress 0 t this) as [[t' this'] evs].
Qed.

Lemma run_settled n outcome this l :
  run w onProgress (repeat 0 n)
    {| handle := this; tasks := [Settled outcome]; log := l |} =
  {| handle := this; tasks := [Settled outcome]; log := l |}.
Proof.
  induction n as [| n IH]; [reflexivity |].
  cbn [repeat run fold_left]. rewrite step_alone. cbn [advance].
  rewrite app_nil_r. exact IH.
Qed.

Lemma run_rejected n e this l :
  run w onProgress (repeat 0 (S n))
    {| handle := this; tasks := [Rejected e]; log := l |} =
  {| handle := set_initializing false this; tasks := [Settled (Some e)];
     log := l |}.
Proof.
  cbn [repeat run fold_left]. rewrite step_alone. cbn [advance].
  rewrite app_nil_r. apply run_settled.
Qed.

(** The probes, one step each. *)
Lemma run_probing fs : forall n this l,
  length fs < n ->
  run w onProgress (repeat 0 n)
    {| handle := this; tasks := [Probing fs]; log := l |} =
  match probe_all w (basePath this) fs this with
  | (Ok _, _, evs) =>
      run w onProgress (repeat 0 (n - length fs))
        {| handle := this; tasks := [Probing []]; log := l ++ evs |}
  | (Throw e, _, evs) =>
      {| handle := set_initializing false this; tasks := [Settled (Some e)];
         log := l ++ evs |}
  | (Pending, _, evs) =>
      {| handle := this; tasks := [Never]; log := l ++ evs |}
  end.
Proof.
  induction fs as [| file rest IH]; intros n this l Hn.
  - cbn [probe_all ret length]. now rewrite Nat.sub_0_r, app_nil_r.
  - destruct n as [| n]; [cbn in Hn; lia |].
    cbn [length] in Hn. cbn [repeat run fold_left]. rewrite step_alone.
    cbn [advance probe_all]. unfold checking, bind.
    destruct (probe w (basePath this) file this) as [[r this'] evs] eqn:Hp.
    apply probe_frame in Hp as (-> & -> & Hr).
    destruct r as [[] | e |]; [| | congruence].
    + change (fold_left (fun s i => step w onProgress i s) (repeat 0 n))
        with (run w onProgress (repeat 0 n)).
      rewrite IH by lia.
      destruct (probe_all w (basePath this) rest this) as [[[[] | e |] s1] evs];
        rewrite <- app_assoc; reflexivity.
    + change (fold_left (fun s i => step w onProgress i s) (repeat 0 n))
        with (run w onProgress (repeat 0 n)).
      destruct n as [| n]; [lia |]. apply run_rejected.
Qed.

(** Run alone, a caller ends where [initialize] says: same object, same
    events, same outcome. *)
Lemma lone_caller this :
  initializing this = false ->
  run w onProgress (repeat 0 8) (initial this 1) =
    (let '(r, this', evs) := initialize w (onProgress 0) this in
     {| handle := this'; tasks := [outcome_of r]; log := evs |}).
Proof.
  intros Hing. unfold initial. cbn [replicate].
  change (repeat 0 8) with (0 :: repeat 0 7). cbn [run fold_left].
  change (fold_left (fun s i => step w onProgress i s) (repeat 0 7))
    with (run w onProgress (repeat 0 7)).
  rewrite step_alone. cbn [advance].
  destruct (initialized this) eqn:Hinit.
  { rewrite initialize_ready by assumption. cbn [outcome_of app].
    apply run_settled. }
  rewrite Hing, initialize_fresh by assumption.
  unfold checking, try_finally.
  rewrite (bind_Ok (modify _) _ this tt _ [] eq_refl).
  rewrite !(bind_Ok _ _ _ _ _ _ (notify_run _ _ _)).
  set (this1 := set_initializing true this).
  set (hello := callback_events _ _).
  destruct (crossOriginIsolated w && hasSharedArrayBuffer w) eqn:Henv.
  - apply andb_true_iff in Henv as (Hiso & Hsab).
    rewrite (preflight_ok w _ Hiso Hsab).
    cbn [app]. rewrite app_nil_r, run_probing by (cbn; lia).
    pose proof (checkEnvironment_supported w this1 Hiso Hsab) as Hcheck.
    destruct (probe_all w (basePath this1) files this1)
      as [[r this2] evs] eqn:Hprobe.
    pose proof (probe_all_frame _ _ _ _ _ _ _ Hprobe) as (-> & Hr & _).
    destruct r as [[] | e |]; [| | congruence].
    + rewrite (bind_Ok _ _ _ _ _ _ Hcheck).
      change (7 - length files) with 2.
      change (repeat 0 2) with [0; 0]. cbn [run fold_left].
      rewrite step_alone. cbn [advance]. unfold trying.
      rewrite engine_startup_run. rewrite step_alone. cbn [advance].
      unfold trying. rewrite (bind_Ok _ _ _ _ _ _ (engine_startup_run _ _)).
      rewrite engine_settle_run.
      destruct (snd (engineInitialize w _)) as [e |]; cbn [outcome_of];
        rewrite ?app_nil_r, <- ?app_assoc; reflexivity.
    + rewrite (bind_Throw _ _ _ _ _ _ Hcheck). cbn [outcome_of]. reflexivity.
  - rewrite (preflight_failed w _ Henv).
    rewrite (bind_Throw _ _ _ _ _ _ (checkEnvironment_unsupported w this1 Henv)).
    cbn [app outcome_of]. rewrite run_rejected. now rewrite !app_nil_r.
Qed.

(** The second caller calls while the first is at work. *)
Lemma calls_shared this :
  initialized this = false -> initializing this = false ->
  shared_invariant (step w onProgress 1 (step w onProgress 0 (initial this 2))).
Proof.
  intros Hinit Hing. unfold initial, step at 2.
  cbn [tasks handle log replicate lookup list_lookup advance].
  rewrite Hinit, Hing. unfold checking.
  rewrite (bind_Ok (modify _) _ this tt _ [] eq_refl).
  rewrite (bind_Ok _ _ _ _ _ _ (notify_run _ _ _)).
  destruct (crossOriginIsolated w && hasSharedArrayBuffer w) eqn:Henv.
  - apply andb_true_iff in Henv as (Hiso & Hsab).
    rewrite (preflight_ok w _ Hiso Hsab).
    unfold step. cbn [tasks handle log insert list_insert lookup list_lookup advance].
    cbn [initialized initializing set_initializing]. rewrite Hinit.
    eexists _, _. split; [reflexivity |]. cbn [tasks handle log].
    rewrite !app_nil_r, !app_nil_l, startups_callback.
    repeat split; auto.
  - rewrite (preflight_failed w _ Henv).
    unfold step. cbn [tasks handle log insert list_insert lookup list_lookup advance].
    cbn [initialized initializing set_initializing]. rewrite Hinit.
    eexists _, _. split; [reflexivity |]. cbn [tasks handle log].
    rewrite !app_nil_r, !app_nil_l, startups_callback.
    repeat split; auto.
Qed.

End Quiet.

(** C4, as far as it holds.  Let a second caller call [initialize] while
    the call of a first caller is in flight.  However the two are
    scheduled afterwards: at most one engine is ever constructed; the
    second caller is asleep in its polling loop or has returned normally;
    it has returned only after the first call has ended, by returning or by
    throwing; once the first call has ended its next poll returns; and when
    the first call returned normally the engine is ready for both. *)
Theorem initialize_shared w onProgress this schedule :
  quiet onProgress ->
  initialized this = false -> initializing this = false ->
  let sys := run w onProgress (0 :: 1 :: schedule) (initial this 2) in
  startups (log sys) <= 1 /\
  (tasks sys !! 1 = Some Polling \/ tasks sys !! 1 = Some (Settled None)) /\
  (tasks sys !! 1 = Some (Settled None) ->
   initializing (handle sys) = false /\
   exists outcome,
     tasks sys !! 0 = Some (Settled outcome) /\
     (outcome = None -> isReady (handle sys) = true)) /\
  (forall outcome,
     tasks sys !! 0 = Some (Settled outcome) ->
     tasks (step w onProgress 1 sys) !! 1 = Some (Settled None)).
Proof.
  intros Hquiet Hinit Hing sys.
  assert (Hinv : shared_invariant sys).
  { subst sys. cbn [run fold_left].
    apply (run_shared w onProgress Hquiet).
    now apply calls_shared. }
  destruct Hinv as (first & second & Hts & Hsecond & Hcount & Hfirst).
  split; [exact Hcount |]. rewrite Hts. cbn [lookup list_lookup].
  split; [| split].
  - destruct Hsecond as [-> | (-> & _)]; auto.
  - intros [= ->]. destruct Hsecond as [[=] | (_ & outcome & ->)].
    destruct Hfirst as (Hflag & Hready). split; [exact Hflag |].
    now exists outcome.
  - intros outcome [= ->]. destruct Hfirst as (Hflag & _).
    unfold step. rewrite Hts. cbn [lookup list_lookup].
    destruct Hsecond as [-> | (-> & _)]; cbn [advance]; rewrite ?Hflag;
      reflexivity.
Qed.

Lemma initialize_shared_witness :
  let sys :=
    run Scenarios.working (fun _ => None) [0; 1; 0; 1; 0; 0; 0; 0; 0; 0; 1]
      (initial (new_LibreOfficeConverter None) 2) in
  startups (log sys) <= 1 /\
  tasks sys !! 1 = Some (Settled None) /\
  tasks sys !! 0 = Some (Settled None) /\
  isReady (handle sys) = true.
Proof.
  intros sys.
  destruct (initialize_shared Scenarios.working (fun _ => None)
              (new_LibreOfficeConverter None) [0; 1; 0; 0; 0; 0; 0; 0; 1])
    as (Hcount & _ & Hsettled & _).
  - intros i cb p H. discriminate H.
  - reflexivity.
  - reflexivity.
  - split; [exact Hcount |]. split; [reflexivity |].
    destruct (Hsettled eq_refl) as (_ & outcome & Hfirst & Hready).
    assert (outcome = None) as -> by (vm_compute in Hfirst; congruence).
    split; [exact Hfirst | exact (Hready eq_refl)].
Defined.

(** C4 fails when the first call fails.  The first asset is missing: the
    first caller's [initialize] throws, and the second caller, which was
    polling, returns normally although the engine is not ready. *)
Lemma initialize_waiter_misses_failure :
  let sys :=
    run Scenarios.missing_wasm (fun _ => None) [0; 1; 0; 0; 1]
      (initial (new_LibreOfficeConverter None) 2) in
  tasks sys =
    [Settled (Some (Error "Required file soffice.wasm returned HTTP 404"));
     Settled None] /\
  isReady (handle sys) = false /\
  startups (log sys) = 0.
Proof. vm_compute. repeat split. Qed.

End ConcurrentFacts.

(** * Further properties of the lifecycle methods *)

Module LifecycleProperties.

Import Js Platform Run LibreOffice Progress Logic.
Import RunFacts ProbeFacts LifecycleFacts.
Open Scope run_scope.

Lemma relayed_fresh cb this that infos :
  initialized this = initialized that ->
  relayed cb this infos = relayed cb that infos.
Proof. unfold relayed. now intros ->. Qed.

(** The course of a call that does the work itself, given what
    [checkEnvironment] does. *)
Lemma initialize_course w cb this check evs0 :
  initialized this = false -> initializing this = false ->
  checkEnvironment w (set_initializing true this) =
    (check, set_initializing true this, evs0) ->
  initialize w cb this =
    match check with
    | Ok _ =>
        match snd (engineInitialize w (engine_options (basePath this))) with
        | Some e =>
            (Throw e, set_converter (Some (engine_options (basePath this))) this,
             callback_events cb hello ++ evs0 ++
             (callback_events cb engine_loading ++
              [EvEngineNew (engine_options (basePath this));
               EvEngineInitialize (engine_options (basePath this))]) ++
             relayed cb this
               (fst (engineInitialize w (engine_options (basePath this)))))
        | None =>
            (Ok tt,
             set_initialized true
               (set_converter (Some (engine_options (basePath this))) this),
             callback_events cb hello ++ evs0 ++
             (callback_events cb engine_loading ++
              [EvEngineNew (engine_options (basePath this));
               EvEngineInitialize (engine_options (basePath this))]) ++
             relayed cb this
               (fst (engineInitialize w (engine_options (basePath this)))) ++
             callback_events cb engine_ready)
        end
    | Throw e => (Throw e, this, callback_events cb hello ++ evs0)
    | Pending =>
        (Pending, set_initializing true this, callback_events cb hello ++ evs0)
    end.
Proof.
  intros Hinit Hing Hcheck. rewrite initialize_fresh by assumption.
  unfold try_finally. rewrite (bind_Ok _ _ _ _ _ _ (notify_run _ _ _)).
  destruct check as [[] | e |].
  - rewrite (bind_Ok _ _ _ _ _ _ Hcheck).
    rewrite (bind_Ok _ _ _ _ _ _ (engine_startup_run _ _)).
    rewrite engine_settle_run. cbn [basePath set_initializing].
    rewrite (relayed_fresh cb _ this) by (cbn; reflexivity).
    destruct (snd (engineInitialize w (engine_options (basePath this))));
      destruct this; cbn in *; subst; reflexivity.
  - rewrite (bind_Throw _ _ _ _ _ _ Hcheck).
    now rewrite set_initializing_cancel.
  - now rewrite (bind_Pending _ _ _ _ _ Hcheck).
Qed.

(** [checkEnvironment] returns or throws, and touches nothing. *)
Lemma checkEnvironment_frame w this r this' evs :
  checkEnvironment w this = (r, this', evs) ->
  this' = this /\ r <> Pending /\
  Forall (fun e => is_engine_event e = false) evs /\ percents evs = [].
Proof.
  destruct (crossOriginIsolated w && hasSharedArrayBuffer w) eqn:Henv.
  - apply andb_true_iff in Henv as (Hiso & Hsab).
    rewrite (checkEnvironment_supported _ _ Hiso Hsab).
    apply probe_all_frame.
  - rewrite (checkEnvironment_unsupported _ _ Henv).
    intros [= <- <- <-]. repeat split; [discriminate | constructor].
Qed.

(** The loop stops at the first probe that throws. *)
Lemma probe_all_stops {S} w base (before after : list string) file e (s : S) :
  (forall f, In f before ->
     exists r, fetchHead w (base +:+ f) = Responds r /\ res_ok r = true) ->
  probe w base file s = (Throw e, s, [EvFetchHead (base +:+ file)]) ->
  probe_all w base (before ++ file :: after) s =
    (Throw e, s, probe_events base (before ++ [file])).
Proof.
  intros Hall Hp. induction before as [| g before IH].
  - cbn [app probe_all]. now rewrite (bind_Throw _ _ _ _ _ _ Hp).
  - destruct (Hall g (or_introl eq_refl)) as (r & Hg & Hgok).
    cbn [app probe_all]. rewrite (bind_Ok _ _ _ _ _ _ (probe_ok w base g r s Hg Hgok)).
    rewrite IH by (intros h Hh; apply Hall; now right). reflexivity.
Qed.

(** *** [initialize]: the ways it ends *)

(** X1.  On a page that is not cross-origin isolated or has no
    [SharedArrayBuffer], a call of [initialize] that has to do the work
    throws the error that names the missing headers, right after its first
    progress message: no file is probed, no engine is constructed, and the
    object is as before. *)
Theorem initialize_unsupported_environment w cb this :
  initialized this = false -> initializing this = false ->
  crossOriginIsolated w && hasSharedArrayBuffer w = false ->
  initialize w cb this =
    (Throw (Error ("SharedArrayBuffer is not available (crossOriginIsolated="
                   +:+ string_of_bool (crossOriginIsolated w) +:+ "). "
                   +:+ "Your server must set Cross-Origin-Opener-Policy and Cross-Origin-Embedder-Policy headers. "
                   +:+ "See browser console for details.")),
     this,
     callback_events cb
       {| phase := "loading"; percent := 0; message := "Checking environment..." |}).
Proof.
  intros Hinit Hing Henv.
  rewrite (initialize_course w cb this _ _ Hinit Hing
             (checkEnvironment_unsupported w _ Henv)).
  cbn [crossOriginIsolated]. now rewrite app_nil_r.
Qed.

Lemma initialize_unsupported_environment_witness :
  initialize Scenarios.not_isolated None (new_LibreOfficeConverter None) =
    (Throw (Error "SharedArrayBuffer is not available (crossOriginIsolated=false). Your server must set Cross-Origin-Opener-Policy and Cross-Origin-Embedder-Policy headers. See browser console for details."),
     new_LibreOfficeConverter None, []).
Proof.
  exact (initialize_unsupported_environment Scenarios.not_isolated None
           (new_LibreOfficeConverter None) eq_refl eq_refl eq_refl).
Defined.

(** X2.  When the HEAD request for a required file throws (the files
    before it having been answered with a success status) and what it
    throws is not itself a "Required file" error, [initialize] throws
    "Cannot fetch <file>: <what was thrown>"; no later file is probed, no
    engine is constructed, and the object is as before. *)
Theorem initialize_network_error w cb this before file after e :
  initialized this = false -> initializing this = false ->
  crossOriginIsolated w = true -> hasSharedArrayBuffer w = true ->
  files = before ++ file :: after ->
  (forall f, In f before ->
     exists r, fetchHead w (basePath this +:+ f) = Responds r /\ res_ok r = true) ->
  fetchHead w (basePath this +:+ file) = FetchThrows e ->
  is_required_file_error e = false ->
  initialize w cb this =
    (Throw (Error ("Cannot fetch " +:+ file +:+ ": " +:+ render e)),
     this,
     callback_events cb
       {| phase := "loading"; percent := 0; message := "Checking environment..." |}
     ++ probe_events (basePath this) (before ++ [file])).
Proof.
  intros Hinit Hing Hiso Hsab Hfiles Hbefore Hfile Hother.
  assert (Hp : probe w (basePath this) file (set_initializing true this) =
            (Throw (Error ("Cannot fetch " +:+ file +:+ ": " +:+ render e)),
             set_initializing true this,
             [EvFetchHead (basePath this +:+ file)])).
  { unfold probe, try_catch, bind, emit, throw. rewrite Hfile. cbn.
    now rewrite Hother. }
  assert (Hcheck : checkEnvironment w (set_initializing true this) =
            (Throw (Error ("Cannot fetch " +:+ file +:+ ": " +:+ render e)),
             set_initializing true this,
             probe_events (basePath this) (before ++ [file]))).
  { rewrite (checkEnvironment_supported _ _ Hiso Hsab).
    cbn [basePath set_initializing]. rewrite Hfiles.
    now apply probe_all_stops. }
  now rewrite (initialize_course w cb this _ _ Hinit Hing Hcheck).
Qed.

Lemma initialize_network_error_witness :
  initialize Scenarios.offline None (new_LibreOfficeConverter None) =
    (Throw (Error "Cannot fetch soffice.js: TypeError: Failed to fetch"),
     new_LibreOfficeConverter None,
     [EvFetchHead "/libreoffice-wasm/soffice.wasm";
      EvFetchHead "/libreoffice-wasm/soffice.data";
      EvFetchHead "/libreoffice-wasm/soffice.js"]).
Proof.
  apply (initialize_network_error Scenarios.offline None
           (new_LibreOfficeConverter None) ["soffice.wasm"; "soffice.data"]
           "soffice.js" ["soffice.worker.js"; "browser.worker.global.js"]
           (JsError "TypeError" "Failed to fetch"));
    try reflexivity.
  intros f [<- | [<- | []]]; exists Scenarios.ok_response; split; reflexivity.
Defined.



(** X4.  A first initialization in a world where the page is isolated,
    the five files are reachable and the engine starts: [initialize]
    returns, having sent its first message, probed the five files in their
    order, sent its second message, constructed the engine on the five
    paths under the base path and started it, passed on the engine's
    reports and sent the ready message; the object is ready. *)
Theorem initialize_first_success w cb this :
  initialized this = false -> initializing this = false ->
  crossOriginIsolated w = true -> hasSharedArrayBuffer w = true ->
  (forall f, In f files ->
     exists r, fetchHead w (basePath this +:+ f) = Responds r /\ res_ok r = true) ->
  snd (engineInitialize w (engine_options (basePath this))) = None ->
  initialize w cb this =
    (Ok tt,
     {| converter := Some (engine_options (basePath this));
        initialized := true; initializing := false;
        basePath := basePath this |},
     callback_events cb hello ++
     probe_events (basePath this) files ++
     (callback_events cb engine_loading ++
      [EvEngineNew (engine_options (basePath this));
       EvEngineInitialize (engine_options (basePath this))]) ++
     relayed cb this (fst (engineInitialize w (engine_options (basePath this)))) ++
     callback_events cb engine_ready).
Proof.
  intros Hinit Hing Hiso Hsab Hfiles Hengine.
  assert (Hcheck : checkEnvironment w (set_initializing true this) =
            (Ok tt, set_initializing true this,
             probe_events (basePath this) files)).
  { rewrite (checkEnvironment_supported _ _ Hiso Hsab).
    now apply probe_all_ok. }
  rewrite (initialize_course w cb this _ _ Hinit Hing Hcheck), Hengine.
  destruct this; cbn in *; subst; reflexivity.
Qed.

Lemma initialize_first_success_witness :
  exists this evs,
    initialize Scenarios.working None (new_LibreOfficeConverter (Some "/lo/")) =
      (Ok tt, this, evs) /\
    isReady this = true /\ fetched evs = map (fun f => "/lo/" +:+ f) files /\
    startups evs = 1.
Proof.
  eexists _, _. split.
  - apply (initialize_first_success Scenarios.working None
             (new_LibreOfficeConverter (Some "/lo/"))); try reflexivity.
    intros f _. exists Scenarios.ok_response. split; reflexivity.
  - repeat split.
Defined.

(** X5.  When the page is isolated and the five files are reachable but
    the engine's own [initialize()] rejects, [initialize] throws what the
    engine threw; the engine reference stays set although [initialized] is
    false, so the object is not ready. *)
Theorem initialize_engine_failure w cb this e :
  initialized this = false -> initializing this = false ->
  crossOriginIsolated w = true -> hasSharedArrayBuffer w = true ->
  (forall f, In f files ->
     exists r, fetchHead w (basePath this +:+ f) = Responds r /\ res_ok r = true) ->
  snd (engineInitialize w (engine_options (basePath this))) = Some e ->
  initialize w cb this =
    (Throw e,
     {| converter := Some (engine_options (basePath this));
        initialized := false; initializing := false;
        basePath := basePath this |},
     callback_events cb hello ++
     probe_events (basePath this) files ++
     (callback_events cb engine_loading ++
      [EvEngineNew (engine_options (basePath this));
       EvEngineInitialize (engine_options (basePath this))]) ++
     relayed cb this (fst (engineInitialize w (engine_options (basePath this))))) /\
  isReady
    {| converter := Some (engine_options (basePath this));
       initialized := false; initializing := false;
       basePath := basePath this |} = false.
Proof.
  intros Hinit Hing Hiso Hsab Hfiles Hengine. split; [| reflexivity].
  assert (Hcheck : checkEnvironment w (set_initializing true this) =
            (Ok tt, set_initializing true this,
             probe_events (basePath this) files)).
  { rewrite (checkEnvironment_supported _ _ Hiso Hsab).
    now apply probe_all_ok. }
  rewrite (initialize_course w cb this _ _ Hinit Hing Hcheck), Hengine.
  destruct this; cbn in *; subst; reflexivity.
Qed.

Lemma initialize_engine_failure_witness :
  exists this evs,
    initialize Scenarios.broken_engine None (new_LibreOfficeConverter None) =
      (Throw (Error "Worker failed to start"), this, evs) /\
    converter this = Some (engine_options LIBREOFFICE_PATH) /\
    isReady this = false /\ startups evs = 1.
Proof.
  destruct (initialize_engine_failure Scenarios.broken_engine None
              (new_LibreOfficeConverter None) (Error "Worker failed to start"))
    as (Hrun & Hready); try reflexivity.
  - intros f _. exists Scenarios.ok_response. split; reflexivity.
  - eexists _, _. split; [exact Hrun |]. split; [reflexivity |].
    split; [exact Hready | reflexivity].
Defined.



(** X7.  [initialize] is idempotent: once a call that found no
    initialization in flight has returned (it found the object initialized,
    or did the work itself), any further call, in any world and with any
    callback, returns at once without a message, a probe or an engine call,
    and leaves the object as it is. *)
Theorem initialize_idempotent w cb this this1 evs w' cb' :
  initializing this = false ->
  initialize w cb this = (Ok tt, this1, evs) ->
  initialize w' cb' this1 = (Ok tt, this1, []).
Proof.
  intros Hing Hrun.
  assert (Hready : initialized this1 = true).
  { destruct (initialized this) eqn:Hinit.
    - rewrite initialize_ready in Hrun by assumption. congruence.
    - destruct (checkEnvironment w (set_initializing true this))
        as [[check this0] evs0] eqn:Hcheck.
      pose proof (checkEnvironment_frame _ _ _ _ _ Hcheck) as (-> & _).
      rewrite (initialize_course w cb this _ _ Hinit Hing Hcheck) in Hrun.
      destruct check as [[] | e |]; try discriminate.
      destruct (snd (engineInitialize w _)); [discriminate |].
      injection Hrun as <- _. reflexivity. }
  unfold initialize. rewrite (bind_Ok get _ this1 this1 this1 [] eq_refl).
  now rewrite Hready.
Qed.

Lemma initialize_idempotent_witness :
  exists this1 evs,
    initialize Scenarios.working None (new_LibreOfficeConverter None) =
      (Ok tt, this1, evs) /\
    initialize Scenarios.broken_engine (Some (fun p => [EvProgress (percent p) (message p)]))
      this1 = (Ok tt, this1, []).
Proof.
  eexists _, _. split; [vm_compute; reflexivity |].
  refine (initialize_idempotent Scenarios.working None
            (new_LibreOfficeConverter None) _ _ _ _ eq_refl _).
  vm_compute. reflexivity.
Defined.

(** *** [destroy] *)

Lemma destroy_without_engine w this :
  converter this = None ->
  destroy w this = (Ok tt, set_initialized false (set_converter None this), []).
Proof.
  intros H. unfold destroy, bind, get, modify, ret. cbn. now rewrite H.
Qed.

Lemma destroy_engine w this engine :
  converter this = Some engine -> engineDestroy w engine = None ->
  destroy w this =
    (Ok tt, set_initialized false (set_converter None this),
     [EvEngineDestroy engine]).
Proof.
  intros H Hd. unfold destroy, bind, get, modify, emit, ret. cbn.
  rewrite H. cbn. now rewrite Hd.
Qed.

(** X8.  When the engine (if there is one) lets itself be shut down,
    [destroy] returns and leaves the object without engine reference and
    not initialized, its base path and its [initializing] flag untouched;
    it calls the engine's [destroy] exactly when there is an engine, so on
    an object that was never initialized it calls nothing.  A conversion
    attempted afterwards fails with "Converter not initialized" without
    reaching any engine. *)
Theorem destroy_resets w this :
  (forall engine, converter this = Some engine -> engineDestroy w engine = None) ->
  destroy w this =
    (Ok tt,
     {| converter := None; initialized := false;
        initializing := initializing this; basePath := basePath this |},
     match converter this with
     | Some engine => [EvEngineDestroy engine]
     | None => []
     end) /\
  forall w' file outputFormat,
    convert w' file outputFormat
      {| converter := None; initialized := false;
         initializing := initializing this; basePath := basePath this |} =
      (Throw (Error "Converter not initialized"),
       {| converter := None; initialized := false;
          initializing := initializing this; basePath := basePath this |},
       []).
Proof.
  intros Hengine. split.
  - destruct (converter this) as [engine |] eqn:Hc.
    + now rewrite (destroy_engine w this engine Hc (Hengine engine eq_refl)).
    + now rewrite (destroy_without_engine w this Hc).
  - intros w' file outputFormat. now apply convert_without_engine.
Qed.

Lemma destroy_resets_witness :
  destroy Scenarios.working Scenarios.ready_converter =
    (Ok tt, new_LibreOfficeConverter None,
     [EvEngineDestroy (engine_options LIBREOFFICE_PATH)]) /\
  destroy Scenarios.working (new_LibreOfficeConverter None) =
    (Ok tt, new_LibreOfficeConverter None, []).
Proof.
  split.
  - apply (destroy_resets Scenarios.working Scenarios.ready_converter).
    reflexivity.
  - apply (destroy_resets Scenarios.working (new_LibreOfficeConverter None)).
    discriminate.
Defined.

(** X9.  When the engine's [destroy] throws, [destroy] throws the same
    and the two assignments after the call do not happen: the object keeps
    its engine reference and its [initialized] flag, so an object that was
    ready is still ready. *)
Theorem destroy_failure_keeps_engine w this engine e :
  converter this = Some engine -> engineDestroy w engine = Some e ->
  destroy w this = (Throw e, this, [EvEngineDestroy engine]) /\
  (initialized this = true -> isReady this = true).
Proof.
  intros Hc Hd. split.
  - unfold destroy, bind, get, emit, throw. cbn. rewrite Hc. cbn.
    now rewrite Hd.
  - intros Hready. unfold isReady. now rewrite Hready, Hc.
Qed.

Lemma destroy_failure_keeps_engine_witness :
  destroy Scenarios.stubborn_engine Scenarios.ready_converter =
    (Throw (Error "Worker does not answer"), Scenarios.ready_converter,
     [EvEngineDestroy (engine_options LIBREOFFICE_PATH)]) /\
  isReady Scenarios.ready_converter = true.
Proof.
  destruct (destroy_failure_keeps_engine Scenarios.stubborn_engine
              Scenarios.ready_converter (engine_options LIBREOFFICE_PATH)
              (Error "Worker does not answer") eq_refl eq_refl)
    as (Hrun & Hready).
  split; [exact Hrun | exact (Hready eq_refl)].
Defined.

(** X10.  After a [destroy] that returned, [initialize] does the work
    again: in a world where everything works it probes the five files,
    constructs an engine on the same base path and leaves the object
    ready. *)
Theorem destroy_then_initialize w this this1 evs1 w2 cb :
  initializing this = false ->
  destroy w this = (Ok tt, this1, evs1) ->
  crossOriginIsolated w2 = true -> hasSharedArrayBuffer w2 = true ->
  (forall f, In f files ->
     exists r, fetchHead w2 (basePath this +:+ f) = Responds r /\ res_ok r = true) ->
  snd (engineInitialize w2 (engine_options (basePath this))) = None ->
  initialize w2 cb this1 =
    (Ok tt,
     {| converter := Some (engine_options (basePath this));
        initialized := true; initializing := false;
        basePath := basePath this |},
     callback_events cb hello ++
     probe_events (basePath this) files ++
     (callback_events cb engine_loading ++
      [EvEngineNew (engine_options (basePath this));
       EvEngineInitialize (engine_options (basePath this))]) ++
     relayed cb this1 (fst (engineInitialize w2 (engine_options (basePath this)))) ++
     callback_events cb engine_ready).
Proof.
  intros Hing Hrun Hiso Hsab Hfiles Hengine.
  assert (Hthis1 : this1 = set_initialized false (set_converter None this)).
  { destruct (converter this) as [engine |] eqn:Hc.
    - unfold destroy, bind, get, emit, throw, modify, ret in Hrun. cbn in Hrun.
      rewrite Hc in Hrun. cbn in Hrun.
      destruct (engineDestroy w engine); [discriminate |].
      now injection Hrun as <- _.
    - rewrite (destroy_without_engine w this Hc) in Hrun.
      now injection Hrun as <- _. }
  subst this1. set (this1 := set_initialized false (set_converter None this)).
  assert (Hcheck : checkEnvironment w2 (set_initializing true this1) =
            (Ok tt, set_initializing true this1,
             probe_events (basePath this1) files)).
  { rewrite (checkEnvironment_supported _ _ Hiso Hsab). now apply probe_all_ok. }
  rewrite (initialize_course w2 cb this1 _ _ eq_refl Hing Hcheck).
  change (basePath this1) with (basePath this). rewrite Hengine.
  unfold this1, set_initialized, set_converter.
  cbn [converter initialized initializing basePath]. now rewrite Hing.
Qed.

Lemma destroy_then_initialize_witness :
  exists this1 evs1 this2 evs2,
    destroy Scenarios.working Scenarios.ready_converter = (Ok tt, this1, evs1) /\
    initialize Scenarios.working None this1 = (Ok tt, this2, evs2) /\
    isReady this2 = true /\ startups evs2 = 1 /\ length (fetched evs2) = 5.
Proof.
  eexists _, _, _, _. split; [vm_compute; reflexivity |]. split.
  - apply (destroy_then_initialize Scenarios.working Scenarios.ready_converter
             _ _ Scenarios.working None eq_refl eq_refl eq_refl eq_refl);
      [| reflexivity].
    intros f _. exists Scenarios.ok_response. split; reflexivity.
  - repeat split.
Defined.

(** *** [convert] *)

Lemma convert_Ok_or_Throw w file outputFormat this this' evs :
  convert w file outputFormat this = (Pending, this', evs) -> False.
Proof.
  destruct (converter this) as [engine |] eqn:Hc.
  - destruct (engineConvert w engine (file_bytes file) outputFormat
                (extension (file_name file)) (file_name file))
      as [result | e] eqn:He.
    + now rewrite (convert_engine_converts _ _ _ _ _ _ Hc He).
    + now rewrite (convert_engine_throws _ _ _ _ _ _ Hc He).
  - now rewrite (convert_without_engine _ _ _ _ Hc).
Qed.



End LifecycleProperties.

(** ** The progress of a successful call of [process] *)

Module ProgressFacts.

Import Js Platform Run LibreOffice ExcelToPdf Progress Reports Logic.
Import RunFacts LifecycleFacts StoreFacts ProcessFacts LifecycleProperties.
Open Scope run_scope.

(** [initialize] does the same whatever its callback does with the
    reports: a callback that delivers one percent value per report, the
    image under [f] of the reported one, makes the run deliver the images
    of the values [initialize] reports. *)
Section Callbacks.

Variable f : Q -> Q.
Variable cb : ProgressCallback.
Hypothesis cb_percent : forall p, percents (cb p) = [f (percent p)].

Lemma percents_callback p :
  percents (callback_events (Some cb) p) =
  map f (percents (callback_events (Some plain) p)).
Proof. cbn. apply cb_percent. Qed.

Lemma percents_relayed this infos :
  percents (relayed (Some cb) this infos) =
  map f (percents (relayed (Some plain) this infos)).
Proof.
  unfold relayed. destruct (initialized this); [reflexivity |].
  induction infos as [| info infos IH]; [reflexivity |].
  cbn [flat_map]. rewrite !percents_app, map_app, IH.
  now rewrite percents_callback.
Qed.

Lemma initialize_percents w this :
  percents (snd (initialize w (Some cb) this)) =
  map f (percents (snd (initialize w (Some plain) this))).
Proof.
  destruct (initialized this) eqn:Hinit.
  { now rewrite !initialize_ready by assumption. }
  destruct (initializing this) eqn:Hing.
  { now rewrite !initialize_polling by assumption. }
  destruct (checkEnvironment w (set_initializing true this))
    as [[check this1] evs0] eqn:Hcheck.
  pose proof (checkEnvironment_frame _ _ _ _ _ Hcheck) as (-> & _ & _ & Hnone).
  rewrite !(initialize_course w _ this _ _ Hinit Hing Hcheck).
  destruct check as [[] | e |];
    [destruct (snd (engineInitialize w (engine_options (basePath this)))) | |];
    cbn [snd]; rewrite !percents_app, ?Hnone, ?percents_app; cbn [app];
    rewrite ?map_app, ?percents_relayed, ?percents_callback; reflexivity.
Qed.

End Callbacks.

Lemma on_object_events {A} ref (m : M LibreOfficeConverter A) s :
  snd (on_object ref m s) =
  match heap s !! ref with
  | Some this => snd (m this)
  | None => []
  end.
Proof.
  unfold on_object. destruct (heap s !! ref) as [this |]; [| reflexivity].
  now destruct (m this) as [[r this'] evs].
Qed.

(** What [process] delivers while it awaits [initialize]: the reports of
    [initialize], each multiplied by 0.8 and capped at 80. *)
Lemma initialize_scaled_reports w ref s :
  percents (snd (on_object ref (initialize w (Some scaled)) s)) =
  map (fun p => Qmin (p * (4 # 5)) 80) (initialize_reports w ref s).
Proof.
  unfold initialize_reports. rewrite !on_object_events.
  destruct (heap s !! ref) as [this |]; [| reflexivity].
  now apply initialize_percents.
Qed.

(** C1, as far as it holds.  In every successful call of [process] the
    percent values delivered to the caller are, in order: 5; then, for
    each percent value [p] that [initialize] reports during the call,
    the smaller of [0.8 * p] and 80; then 85; then 100.  So the last
    value is exactly 100.  When the shared engine is already initialized,
    [initialize] reports nothing and the sequence is 5, 85, 100, which is
    non-decreasing. *)
Theorem process_progress w input s artifact filename metadata s' evs :
  process w input s = (Ok (Success artifact filename metadata), s', evs) ->
  (exists ref s1,
     getLibreOfficeConverter None s = (Ok ref, s1, []) /\
     percents evs =
       5%Q :: map (fun p => Qmin (p * (4 # 5)) 80) (initialize_reports w ref s1)
           ++ [85%Q; 100%Q]) /\
  last (percents evs) = Some 100%Q /\
  (forall ref this,
     converterInstance s = Some ref -> heap s !! ref = Some this ->
     initialized this = true ->
     initialize_reports w ref s = [] /\
     percents evs = [5%Q; 85%Q; 100%Q] /\ nondecreasing (percents evs)).
Proof.
  intros Hrun.
  assert (Hfile : exists file, input = {| input_files := [file] |}).
  { destruct input as [[| f [| g rest]]]; try discriminate. now exists f. }
  destruct Hfile as (file & ->).
  apply process_success in Hrun
    as (ref & s1 & s2 & evs1 & evs2 & _ & Hget & Hinit & Hconv & _ & _ & ->).
  apply on_object_inv in Hconv as (this2 & this3 & _ & Hconv & _);
    [| discriminate].
  apply convert_Ok in Hconv as (engine & result & _ & _ & _ & _ & ->).
  assert (Hpc : percents (loading :: evs1 ++ converting ::
                  [EvEngineConvert engine (file_bytes file) "pdf"
                     (extension (file_name file)) (file_name file)] ++ [complete])
                = 5%Q :: percents evs1 ++ [85%Q; 100%Q]).
  { cbn. now rewrite percents_app. }
  rewrite Hpc.
  assert (Hreports : percents evs1 =
            map (fun p => Qmin (p * (4 # 5)) 80) (initialize_reports w ref s1)).
  { rewrite <- initialize_scaled_reports. now rewrite Hinit. }
  split; [| split].
  - exists ref, s1. split; [exact Hget |]. now rewrite Hreports.
  - replace (5%Q :: percents evs1 ++ [85%Q; 100%Q])
      with ((5%Q :: percents evs1 ++ [85%Q]) ++ [100%Q]).
    + apply last_snoc.
    + cbn. now rewrite <- app_assoc.
  - intros ref' this Href Hthis Hready.
    rewrite (getLibreOfficeConverter_existing _ _ _ Href) in Hget.
    injection Hget as <- <-.
    split.
    + unfold initialize_reports. rewrite on_object_events, Hthis.
      now rewrite initialize_ready.
    + rewrite (on_object_same _ _ _ _ _ _ Hthis (initialize_ready w _ _ Hready))
        in Hinit.
      injection Hinit as <- <-. cbn. repeat split; vm_compute; discriminate.
Qed.

Lemma process_progress_witness :
  (exists artifact filename metadata s' evs,
     process Scenarios.working {| input_files := [Scenarios.sheet] |}
       Scenarios.warm = (Ok (Success artifact filename metadata), s', evs) /\
     last (percents evs) = Some 100%Q /\
     percents evs = [5%Q; 85%Q; 100%Q] /\ nondecreasing (percents evs)) /\
  (exists artifact filename metadata s' evs ref s1,
     process Scenarios.working {| input_files := [Scenarios.sheet] |}
       empty_store = (Ok (Success artifact filename metadata), s', evs) /\
     getLibreOfficeConverter None empty_store = (Ok ref, s1, []) /\
     initialize_reports Scenarios.working ref s1 =
       [0%Q; 5%Q; 0%Q; 50%Q; 100%Q; 100%Q] /\
     percents evs =
       5%Q :: map (fun p => Qmin (p * (4 # 5)) 80)
                (initialize_reports Scenarios.working ref s1)
           ++ [85%Q; 100%Q]).
Proof.
  split.
  - eexists _, _, _, _, _. split; [vm_compute; reflexivity |].
    destruct (process_progress Scenarios.working
                {| input_files := [Scenarios.sheet] |} Scenarios.warm
                _ _ _ _ _ eq_refl) as (_ & Hlast & Hwarm).
    split; [exact Hlast |].
    exact (proj2 (Hwarm 0 _ eq_refl eq_refl eq_refl)).
  - eexists _, _, _, _, _, _, _. split; [vm_compute; reflexivity |].
    split; [vm_compute; reflexivity |]. split; [vm_compute; reflexivity |].
    destruct (process_progress Scenarios.working
                {| input_files := [Scenarios.sheet] |} empty_store
                _ _ _ _ _ eq_refl) as ((ref & s1 & Hget & Hpercents) & _ & _).
    vm_compute in Hget. injection Hget as <- <-. exact Hpercents.
Defined.

End ProgressFacts.

(** * Further properties of file names *)

Module NameProperties.

Import Js Platform Run LibreOffice ExcelToPdf StringFacts.

Lemma lower_ascii_is_dot (c : ascii) :
  Ascii.eqb (lower_ascii c) "." = Ascii.eqb c ".".
Proof. destruct c as [[] [] [] [] [] [] [] []]; reflexivity. Qed.

Lemma lower_ascii_idempotent (c : ascii) :
  lower_ascii (lower_ascii c) = lower_ascii c.
Proof. destruct c as [[] [] [] [] [] [] [] []]; reflexivity. Qed.

Lemma toLowerCase_idempotent (s : string) :
  toLowerCase (toLowerCase s) = toLowerCase s.
Proof.
  induction s as [| c s IH]; [reflexivity |].
  cbn [toLowerCase]. now rewrite lower_ascii_idempotent, IH.
Qed.

Lemma split_toLowerCase (s : string) :
  split "." (toLowerCase s) = map toLowerCase (split "." s).
Proof.
  induction s as [| c s IH]; [reflexivity |].
  cbn [toLowerCase split]. rewrite lower_ascii_is_dot, IH.
  destruct (Ascii.eqb c "."); [reflexivity |].
  destruct (split "." s); reflexivity.
Qed.

Lemma last_map {A B} (f : A -> B) (l : list A) :
  last (map f l) = option_map f (last l).
Proof.
  induction l as [| x [| y l] IH]; [reflexivity | reflexivity |].
  exact IH.
Qed.

(** X12.  For a file name made of ASCII characters, the extension
    [process] and [convert] derive from the name does not depend on its
    letter case: [REPORT.XLSX] and [report.xlsx] are the same to the
    validation and to the engine. *)
Theorem extension_ignores_case (name : string) :
  is_ascii name = true ->
  extension (toLowerCase name) = extension name.
Proof.
  intros _. unfold extension. rewrite split_toLowerCase, last_map.
  destruct (last (split "." name)) as [seg |]; cbn [option_map];
    [| reflexivity].
  now rewrite toLowerCase_idempotent.
Qed.

Lemma extension_ignores_case_witness :
  extension "report.xlsx" = extension "REPORT.XLSX".
Proof.
  exact (extension_ignores_case "REPORT.XLSX" eq_refl).
Defined.

Lemma matches_extension_has_dot (s : string) :
  matches_extension s = true -> contains "." s = true.
Proof.
  destruct s as [| c s]; [discriminate |].
  unfold matches_extension, includes. cbn [toLowerCase existsb contains].
  rewrite <- lower_ascii_is_dot.
  destruct (Ascii.eqb (lower_ascii c) ".") eqn:Hc; [reflexivity |].
  cbn. rewrite !Hc. discriminate.
Qed.

Lemma strip_extension_without_dot (name : string) :
  contains "." name = false -> strip_extension name = name.
Proof.
  induction name as [| c name IH]; intros Hdot; [reflexivity |].
  cbn [strip_extension].
  destruct (matches_extension (String c name)) eqn:Hm.
  - apply matches_extension_has_dot in Hm. congruence.
  - cbn [contains] in Hdot. apply orb_false_iff in Hdot as (_ & Hdot).
    now rewrite IH.
Qed.

(** X13.  Cutting the extension only ever removes the end of the name,
    and what it removes is nothing or a dot followed by xls, xlsx, ods or
    csv in any letter case; a name without a dot is left whole. *)
Theorem strip_extension_suffix (name : string) :
  (exists suffix,
     name = strip_extension name +:+ suffix /\
     (suffix = EmptyString \/ matches_extension suffix = true)) /\
  (contains "." name = false -> strip_extension name = name).
Proof.
  split.
  - induction name as [| c name IH].
    + exists EmptyString. split; [reflexivity | now left].
    + cbn [strip_extension].
      destruct (matches_extension (String c name)) eqn:Hm.
      * exists (String c name). split; [reflexivity | now right].
      * destruct IH as (suffix & Heq & Hsuffix).
        exists suffix. split; [| exact Hsuffix].
        rewrite app_String. now rewrite <- Heq.
  - apply strip_extension_without_dot.
Qed.

Lemma strip_extension_suffix_witness :
  strip_extension "CSV" = "CSV" /\
  exists suffix,
    "a.csv.XLSX" = strip_extension "a.csv.XLSX" +:+ suffix /\
    (suffix = EmptyString \/ matches_extension suffix = true).
Proof.
  split.
  - exact (proj2 (strip_extension_suffix "CSV") eq_refl).
  - exact (proj1 (strip_extension_suffix "a.csv.XLSX")).
Defined.

End NameProperties.

(** * Further properties of [process] *)

Module GatewayProperties.

Import Js Platform Run LibreOffice ExcelToPdf Progress Client Logic.
Import RunFacts ProbeFacts LifecycleFacts StoreFacts StringFacts ProcessFacts.
Import SingletonFacts LifecycleProperties NameProperties.
Open Scope run_scope.

(** *** What a call emits *)

Lemma Emits_process (P : Event -> Prop) w input :
  (forall url, P (EvFetchHead url)) ->
  (forall engine, P (EvEngineNew engine)) ->
  (forall engine, P (EvEngineInitialize engine)) ->
  (forall engine data o i n, P (EvEngineConvert engine data o i n)) ->
  (forall q m, (q <= 100)%Q -> P (EvProgress q m)) ->
  Emits P (process w input).
Proof.
  intros Hfetch Hnew Hinit Hconv Hprogress. unfold process.
  destruct (input_files input) as [| file [| g rest]]; try apply Emits_ret.
  destruct (negb _); [apply Emits_ret |].
  apply Emits_try_catch; [| intros e; apply Emits_ret].
  apply Emits_bind.
  { apply Emits_emit. repeat constructor. now apply Hprogress. }
  intros _. apply Emits_bind.
  { intros s r s' evs Hrun.
    destruct (getLibreOfficeConverter_returns None s) as (ref & s1 & Hget).
    rewrite Hget in Hrun. injection Hrun as <- <- <-. constructor. }
  intros ref. apply Emits_bind.
  { apply Emits_on_object. apply Emits_initialize; auto.
    intros c q [= <-]. repeat constructor. apply Hprogress.
    apply (Qle_trans _ 80); [apply Q.le_min_r | discriminate]. }
  intros _. destruct (checkCancelled w DuringInit); [apply Emits_ret |].
  apply Emits_bind.
  { apply Emits_emit. repeat constructor. now apply Hprogress. }
  intros _. apply Emits_bind.
  { apply Emits_on_object. now apply Emits_convert. }
  intros pdfBlob. destruct (checkCancelled w DuringConvert); [apply Emits_ret |].
  apply Emits_bind; [| intros _; apply Emits_ret].
  apply Emits_emit. repeat constructor. now apply Hprogress.
Qed.

(** X14.  No call of [process], whatever its input, the world and the
    store, reports more than 100 percent to its caller. *)
Theorem process_percent_bound w input s r s' evs :
  process w input s = (r, s', evs) ->
  Forall (fun p => (p <= 100)%Q) (percents evs).
Proof.
  intros Hrun. apply percents_below.
  refine (Emits_process (progress_below 100) w input _ _ _ _ _ _ _ _ _ Hrun);
    try (intros; exact I).
  intros q m Hq. exact Hq.
Qed.

Lemma process_percent_bound_witness :
  exists r s' evs,
    process Scenarios.working {| input_files := [Scenarios.sheet] |} empty_store =
      (r, s', evs) /\
    Forall (fun p => (p <= 100)%Q) (percents evs) /\
    length (percents evs) = 9.
Proof.
  eexists _, _, _. split; [vm_compute; reflexivity |]. split.
  - exact (process_percent_bound Scenarios.working
             {| input_files := [Scenarios.sheet] |} empty_store _ _ _ eq_refl).
  - reflexivity.
Defined.

(** X15.  [process] never shuts the engine down: whatever happens during
    a call, failure of the initialization or of the conversion included,
    the engine's [destroy] is not called. *)
Theorem process_never_destroys w input s r s' evs :
  process w input s = (r, s', evs) ->
  Forall (fun e => is_engine_destroy e = false) evs.
Proof.
  intros Hrun.
  refine (Emits_process (fun e => is_engine_destroy e = false) w input
            _ _ _ _ _ _ _ _ _ Hrun); reflexivity.
Qed.

Lemma process_never_destroys_witness :
  exists r s' evs,
    process Scenarios.rejecting_engine {| input_files := [Scenarios.sheet] |}
      empty_store = (r, s', evs) /\
    r = Ok (failed "Document could not be loaded") /\
    Forall (fun e => is_engine_destroy e = false) evs.
Proof.
  eexists _, _, _. split; [vm_compute; reflexivity |]. split; [reflexivity |].
  exact (process_never_destroys Scenarios.rejecting_engine
           {| input_files := [Scenarios.sheet] |} empty_store _ _ _ eq_refl).
Defined.

(** *** Nothing escapes [process] *)

Lemma initialize_quiescent w cb this r this' evs :
  initializing this = false ->
  initialize w cb this = (r, this', evs) ->
  r <> Pending /\ initializing this' = false.
Proof.
  intros Hing Hrun. destruct (initialized this) eqn:Hinit.
  { rewrite initialize_ready in Hrun by assumption.
    injection Hrun as <- <- <-. split; [discriminate | exact Hing]. }
  destruct (checkEnvironment w (set_initializing true this))
    as [[check this1] evs0] eqn:Hcheck.
  pose proof (checkEnvironment_frame _ _ _ _ _ Hcheck) as (-> & Hsettles & _).
  rewrite (initialize_course w cb this _ _ Hinit Hing Hcheck) in Hrun.
  destruct check as [[] | e |]; [| | congruence].
  - destruct (snd (engineInitialize w _)); injection Hrun as <- <- <-;
      (split; [discriminate | exact Hing]).
  - injection Hrun as <- <- <-. split; [discriminate | exact Hing].
Qed.

Lemma getLibreOfficeConverter_settled path s :
  settled_store s ->
  exists ref s1 this,
    getLibreOfficeConverter path s = (Ok ref, s1, []) /\
    converterInstance s1 = Some ref /\
    heap s1 !! ref = Some this /\ initializing this = false.
Proof.
  unfold settled_store. intros Hs.
  destruct (converterInstance s) as [ref |] eqn:Hci.
  - destruct Hs as (this & Hl & Hing). exists ref, s, this.
    now rewrite (getLibreOfficeConverter_existing _ _ _ Hci).
  - rewrite (getLibreOfficeConverter_first _ _ Hci).
    eexists _, _, (new_LibreOfficeConverter path).
    split; [reflexivity |]. cbn [converterInstance heap].
    split; [reflexivity |]. split; [| reflexivity].
    now rewrite lookup_app_r, Nat.sub_diag by lia.
Qed.

Lemma process_settled w input s r s' evs :
  settled_store s ->
  process w input s = (r, s', evs) ->
  (exists output, r = Ok output) /\ settled_store s'.
Proof.
  intros Hs Hrun.
  destruct input as [[| file [| g rest]]];
    try (injection Hrun as <- <- <-; split; [eauto | exact Hs]).
  destruct (includes validExts (extension (file_name file))) eqn:Hvalid;
    [| rewrite process_unsupported in Hrun by assumption;
       injection Hrun as <- <- <-; split; [eauto | exact Hs]].
  destruct (getLibreOfficeConverter_settled None s Hs)
    as (ref & s1 & this & Hget & Hci & Hl & Hing).
  destruct (initialize w (Some scaled) this) as [[init this1] evs1] eqn:Hinit.
  destruct (initialize_quiescent _ _ _ _ _ _ Hing Hinit) as (Hsettles & Hing1).
  pose proof (on_object_run ref _ s1 _ _ _ _ Hl Hinit) as Hon.
  set (s2 := {| heap := <[ref := this1]> (heap s1);
                converterInstance := converterInstance s1 |}) in *.
  assert (Hl2 : heap s2 !! ref = Some this1).
  { apply list_lookup_insert_eq. now apply lookup_lt_Some in Hl. }
  assert (Hs2 : settled_store s2).
  { unfold settled_store. cbn [converterInstance s2]. rewrite Hci. eauto. }
  rewrite (process_course _ _ _ _ _ _ _ _ Hvalid Hget Hon) in Hrun.
  destruct init as [[] | e |]; [| | congruence].
  - destruct (checkCancelled w DuringInit);
      [injection Hrun as <- <- <-; split; [eauto | exact Hs2] |].
    destruct (convertToPdf w file this1) as [[conv this2] evs2] eqn:Hconv.
    pose proof (convert_state _ _ _ _ _ _ _ Hconv) as <-.
    rewrite (on_object_same _ _ _ _ _ _ Hl2 Hconv) in Hrun.
    destruct (convert_guard w file "pdf" this1) as (Hnone & Hsome).
    destruct conv as [pdfBlob | e |].
    + destruct (checkCancelled w DuringConvert);
        injection Hrun as <- <- <-; split; eauto.
    + injection Hrun as <- <- <-. split; eauto.
    + exfalso. unfold convertToPdf in Hconv.
      destruct (converter this1) as [engine |] eqn:Hc.
      * apply convert_Ok_or_Throw in Hconv. exact Hconv.
      * rewrite (Hnone eq_refl) in Hconv. discriminate.
  - injection Hrun as <- <- <-. split; eauto.
Qed.

(** X16.  [process] never throws: nothing thrown by [initialize], by
    [convert] or by the engine escapes it, so a call that ends has
    returned a result, a success or a structured failure.  And on a store
    whose singleton, if it exists, is not being initialized, the store
    that a call leaves when it ends is again such a store. *)
Theorem process_returns w input s r s' evs :
  process w input s = (r, s', evs) ->
  (forall e, r <> Throw e) /\
  (settled_store s -> r <> Pending -> settled_store s').
Proof.
  intros Hrun. split; [| intros Hs _; eapply process_settled; eassumption].
  intros e ->.
  destruct input as [[| file [| g rest]]]; try discriminate.
  destruct (includes validExts (extension (file_name file))) eqn:Hvalid;
    [| now rewrite process_unsupported in Hrun].
  destruct (getLibreOfficeConverter_returns None s) as (ref & s1 & Hget).
  destruct (on_object ref (initialize w (Some scaled)) s1)
    as [[init s2] evs1] eqn:Hinit.
  rewrite (process_course _ _ _ _ _ _ _ _ Hvalid Hget Hinit) in Hrun.
  destruct init as [[] | e0 |]; try discriminate.
  destruct (checkCancelled w DuringInit); try discriminate.
  destruct (on_object ref (convertToPdf w file) s2)
    as [[[pdfBlob | e1 |] s3] evs2]; try discriminate.
  destruct (checkCancelled w DuringConvert); discriminate.
Qed.

Lemma process_returns_witness :
  exists r s' evs,
    process Scenarios.broken_engine {| input_files := [Scenarios.sheet] |}
      empty_store = (r, s', evs) /\
    r = Ok (failed "Worker failed to start") /\ settled_store s'.
Proof.
  eexists _, _, _. split; [vm_compute; reflexivity |]. split; [reflexivity |].
  refine (proj2 (process_returns Scenarios.broken_engine
                   {| input_files := [Scenarios.sheet] |} empty_store
                   _ _ _ eq_refl) I _).
  discriminate.
Defined.

(** X17.  When the call of [initialize] made by [process] throws, [process]
    returns the failure with code [PROCESSING_FAILED] whose detail is the
    message of what was thrown ("Unknown error" if it is not an error
    object); it has sent the 5 percent message and what [initialize]
    reported, and it does not get to the conversion: the engine's
    [convert] is not called. *)
Theorem process_initialization_failure w file s ref s1 e s2 evs1 :
  includes validExts (extension (file_name file)) = true ->
  getLibreOfficeConverter None s = (Ok ref, s1, []) ->
  on_object ref (initialize w (Some scaled)) s1 = (Throw e, s2, evs1) ->
  process w {| input_files := [file] |} s =
    (Ok (Failure PROCESSING_FAILED "Failed to convert Excel to PDF."
           (Some (message_or e "Unknown error"))),
     s2, loading :: evs1) /\
  Forall (fun ev => is_engine_convert ev = false) (loading :: evs1).
Proof.
  intros Hvalid Hget Hinit. split.
  - now rewrite (process_course _ _ _ _ _ _ _ _ Hvalid Hget Hinit).
  - constructor; [reflexivity |].
    refine (Emits_on_object _ ref _ _ _ _ _ _ Hinit).
    apply Emits_initialize; try reflexivity.
    intros c q [= <-]. now repeat constructor.
Qed.

Lemma process_initialization_failure_witness :
  exists s' evs,
    process Scenarios.not_isolated {| input_files := [Scenarios.sheet] |}
      empty_store =
      (Ok (Failure PROCESSING_FAILED "Failed to convert Excel to PDF."
             (Some "SharedArrayBuffer is not available (crossOriginIsolated=false). Your server must set Cross-Origin-Opener-Policy and Cross-Origin-Embedder-Policy headers. See browser console for details.")),
       s', evs) /\
    percents evs = [5%Q; (0 # 5)%Q].
Proof.
  eexists _, _.
  destruct (process_initialization_failure Scenarios.not_isolated
              Scenarios.sheet empty_store 0
              {| heap := [new_LibreOfficeConverter None];
                 converterInstance := Some 0 |}
              (environment_error false)
              {| heap := [new_LibreOfficeConverter None];
                 converterInstance := Some 0 |}
              (scaled hello) eq_refl eq_refl eq_refl) as (Hrun & _).
  split; [exact Hrun | reflexivity].
Defined.

(** *** The engine is shared by the calls *)




(** *** Names without a dot *)

(** X19.  A file whose name has no dot is judged by its whole name: if
    the name, lowercased, is one of xlsx, xls, ods, csv the file passes the
    validation, and when the call succeeds nothing is cut from the name:
    the artifact is called [name.pdf]. *)
Theorem process_bare_name w file s artifact filename metadata s' evs :
  contains "." (file_name file) = false ->
  process w {| input_files := [file] |} s =
    (Ok (Success artifact filename metadata), s', evs) ->
  In (toLowerCase (file_name file)) ["xlsx"; "xls"; "ods"; "csv"] /\
  filename = file_name file +:+ ".pdf".
Proof.
  intros Hdot Hrun.
  apply process_success in Hrun
    as (ref & s1 & s2 & evs1 & evs2 & Hvalid & _ & _ & _ & -> & _ & _).
  rewrite (extension_without_dot _ Hdot) in Hvalid. split.
  - unfold includes, validExts in Hvalid. cbn [existsb] in Hvalid.
    rewrite !orb_true_iff, !String.eqb_eq in Hvalid. cbn [In].
    destruct Hvalid as [H | [H | [H | [H | H]]]]; try discriminate; auto.
  - now rewrite (strip_extension_without_dot _ Hdot).
Qed.

Lemma process_bare_name_witness :
  exists artifact filename metadata s' evs,
    process Scenarios.working {| input_files := [Scenarios.bare] |} empty_store =
      (Ok (Success artifact filename metadata), s', evs) /\
    filename = "CSV.pdf".
Proof.
  eexists _, _, _, _, _. split; [vm_compute; reflexivity |].
  exact (proj2 (process_bare_name Scenarios.working Scenarios.bare empty_store
                  _ _ _ _ _ eq_refl eq_refl)).
Defined.

(** *** The singleton made by [process] *)

(** X20.  If no caller has asked for the shared converter before, a call
    of [process] that gets past the validation creates it with the base
    path [/libreoffice-wasm/], however the call ends; from then on
    [getLibreOfficeConverter] returns this object and ignores the base
    path it is given. *)
Theorem process_creates_singleton w file s r s' evs :
  converterInstance s = None ->
  includes validExts (extension (file_name file)) = true ->
  process w {| input_files := [file] |} s = (r, s', evs) ->
  (exists this,
     heap s' !! length (heap s) = Some this /\
     basePath this = "/libreoffice-wasm/") /\
  forall path,
    getLibreOfficeConverter path s' = (Ok (length (heap s)), s', []).
Proof.
  intros Hnull Hvalid Hrun.
  pose proof (getLibreOfficeConverter_first None s Hnull) as Hget.
  set (ref := length (heap s)) in *.
  set (s1 := {| heap := heap s ++ [new_LibreOfficeConverter None];
                converterInstance := Some ref |}) in *.
  assert (Hpin1 : pinned ref LIBREOFFICE_PATH s1).
  { split; [reflexivity |]. exists (new_LibreOfficeConverter None).
    split; [| reflexivity]. subst s1 ref. cbn [heap].
    now rewrite lookup_app_r, Nat.sub_diag by lia. }
  destruct (on_object ref (initialize w (Some scaled)) s1)
    as [[init s2] evs1] eqn:Hinit.
  pose proof (on_object_pinned ref LIBREOFFICE_PATH ref _
                (initialize_basePath w (Some scaled)) _ _ _ _ Hinit Hpin1)
    as Hpin2.
  destruct (on_object ref (convertToPdf w file) s2)
    as [[conv s3] evs2] eqn:Hconv.
  pose proof (on_object_pinned ref LIBREOFFICE_PATH ref _
                (convert_basePath w file "pdf") _ _ _ _ Hconv Hpin2)
    as Hpin3.
  rewrite (process_course _ _ _ _ _ _ _ _ Hvalid Hget Hinit) in Hrun.
  assert (Hpin : pinned ref LIBREOFFICE_PATH s').
  { destruct init as [[] | e |];
      [destruct (checkCancelled w DuringInit) | |];
      try (injection Hrun as <- <- <-; exact Hpin2).
    rewrite Hconv in Hrun.
    destruct conv as [pdfBlob | e |];
      [destruct (checkCancelled w DuringConvert) | |];
      injection Hrun as <- <- <-; exact Hpin3. }
  destruct Hpin as (Hci & this & Hl & Hbase). split; [now exists this |].
  intros path. now apply getLibreOfficeConverter_existing.
Qed.

Lemma process_creates_singleton_witness :
  exists r s' evs this,
    process (Scenarios.missing_data None) {| input_files := [Scenarios.sheet] |}
      empty_store = (r, s', evs) /\
    heap s' !! 0 = Some this /\ basePath this = "/libreoffice-wasm/" /\
    getLibreOfficeConverter (Some "/assets/lo/") s' = (Ok 0, s', []).
Proof.
  destruct (process (Scenarios.missing_data None)
              {| input_files := [Scenarios.sheet] |} empty_store)
    as [[r s'] evs] eqn:Hrun.
  destruct (process_creates_singleton (Scenarios.missing_data None)
              Scenarios.sheet empty_store r s' evs eq_refl eq_refl Hrun)
    as ((this & Hl & Hbase) & Hget).
  exists r, s', evs, this. split; [reflexivity |]. split; [exact Hl |].
  split; [exact Hbase | exact (Hget (Some "/assets/lo/"))].
Defined.

(** *** The one-file entry point *)

(** X22.  [excelToPDF] hands [process] exactly one file, so whatever it
    returns is never the wrong-file-count failure: a result of
    [excelToPDF] is a success or a failure with one of the other three
    codes. *)
Theorem excelToPDF_never_invalid_count w file s output s' evs :
  excelToPDF w file s = (Ok output, s', evs) ->
  match output with
  | Failure INVALID_OPTIONS _ _ => False
  | _ => True
  end.
Proof.
  unfold excelToPDF. intros Hrun.
  destruct (includes validExts (extension (file_name file))) eqn:Hvalid;
    [| rewrite process_unsupported in Hrun by assumption;
       now injection Hrun as <- _ _].
  destruct (getLibreOfficeConverter_returns None s) as (ref & s1 & Hget).
  destruct (on_object ref (initialize w (Some scaled)) s1)
    as [[init s2] evs1] eqn:Hinit.
  rewrite (process_course _ _ _ _ _ _ _ _ Hvalid Hget Hinit) in Hrun.
  destruct init as [[] | e |];
    [destruct (checkCancelled w DuringInit) | |];
    try (now injection Hrun as <- _ _); try discriminate.
  destruct (on_object ref (convertToPdf w file) s2)
    as [[[pdfBlob | e |] s3] evs2];
    [destruct (checkCancelled w DuringConvert) | |];
    try (now injection Hrun as <- _ _); discriminate.
Qed.

Lemma excelToPDF_never_invalid_count_witness :
  exists output s' evs,
    excelToPDF Scenarios.working Scenarios.notes empty_store =
      (Ok output, s', evs) /\
    output = invalid_type Scenarios.notes /\
    match output with
    | Failure INVALID_OPTIONS _ _ => False
    | _ => True
    end.
Proof.
  eexists _, _, _. split; [vm_compute; reflexivity |]. split; [reflexivity |].
  exact (excelToPDF_never_invalid_count Scenarios.working Scenarios.notes
           empty_store _ _ _ eq_refl).
Defined.

End GatewayProperties.

(** * Further properties of concurrent callers *)

Module ConcurrentProperties.

Import Js Platform Run LibreOffice Progress Concurrent ConcurrentFacts.

(** X21.  Whatever the number of callers of [initialize] on one object
    and however they are scheduled, at every moment at most one of them is
    running the initialization sequence, and one is exactly when the flag
    [initializing] is set. *)
Theorem initialize_mutual_exclusion w onProgress this n schedule :
  initializing this = false ->
  in_flight_count (tasks (run w onProgress schedule (initial this n))) <= 1 /\
  (in_flight_count (tasks (run w onProgress schedule (initial this n))) = 1 <->
   initializing (handle (run w onProgress schedule (initial this n))) = true).
Proof.
  intros Hing.
  pose proof (run_exclusive w onProgress this n schedule Hing) as Hex.
  unfold exclusive in Hex. rewrite Hex.
  destruct (initializing (handle _)); split; try lia; split; congruence.
Qed.

Lemma initialize_mutual_exclusion_witness :
  let sys :=
    run Scenarios.working (fun _ => None) [0; 1; 2; 0; 1; 0; 2]
      (initial (new_LibreOfficeConverter None) 3) in
  in_flight_count (tasks sys) = 1 /\
  tasks sys = [Probing ["soffice.js"; "soffice.worker.js"; "browser.worker.global.js"];
               Polling; Polling].
Proof.
  intros sys.
  destruct (initialize_mutual_exclusion Scenarios.working (fun _ => None)
              (new_LibreOfficeConverter None) 3 [0; 1; 2; 0; 1; 0; 2] eq_refl)
    as (_ & Hiff).
  split; [apply Hiff; reflexivity | reflexivity].
Defined.

End ConcurrentProperties.
